(** * Adaptive Thermostat: the control engine, embedded and verified

    A shallow embedding of the Home Assistant integration
    [custom_components/adaptive_thermostat]:

    - [const.py]: the price-to-shift transfer function
      [price_based_shift_percent];
    - [climate.py]: the climate entity [AdaptiveThermostat] with its
      hysteresis controller [_async_control_heating], the shift aggregator
      [_calculate_total_shift], the actuator adapter
      [_async_set_real_thermostat], the two user commands and the state
      attributes [extra_state_attributes];
    - [__init__.py]: the coordinator's sensor fetch [_async_update_data],
      its price listener ([async_start], [async_stop]), and the entry's
      [async_setup_entry] and [async_unload_entry];
    - [config_flow.py]: the config flow ([async_step_user],
      [async_step_advanced], [_validate_entities]) and the options flow
      ([async_step_init]).

    Numbers are Python floats, that is IEEE 754 binary64 with rounding to
    nearest even: they are Rocq's primitive floats, so every definition
    below computes bit for bit what the Python expression computes
    (infinities and NaN included).  What the component imports from outside
    the repository is a parameter: [math.tanh] (the C library's), the builtin
    [float] applied to a sensor's state string, and the outcome of the host's
    service call.  Coroutines are functions in a state-and-exception monad
    over the two objects the code mutates or reads (the entity, the
    coordinator), the host's state machine and a trace of the observable
    effects (service calls, log records, state writes).  A coroutine is run
    from its call to its return: what the event loop may interleave at an
    [await] is outside the model. *)

From Stdlib Require Import Floats Reals Lra.
From stdpp Require Import base option list strings gmap.

(* A decimal literal denotes the nearest binary64 number, as in Python. *)
Set Warnings "-inexact-float".

(** ** The Python runtime: exceptions and results *)

Module Py.

(** The exception classes that matter here.  Every one of them derives from
    [Exception] except [CancelledError], which derives from
    [BaseException] only (a cancelled task is not a failed call). *)
Inductive Exn :=
| ValueError
| TypeError
| KeyError
| OverflowError
| HomeAssistantError
| ServiceNotFound
| TimeoutError
| CancelledError.

Definition isinstance_Exception (e : Exn) : bool :=
  match e with
  | CancelledError => false
  | _ => true
  end.

(** [except (ValueError, TypeError)] *)
Definition isinstance_ValueError_TypeError (e : Exn) : bool :=
  match e with
  | ValueError | TypeError => true
  | _ => false
  end.

Inductive Result (A : Type) :=
| Return (a : A)
| Raise (e : Exn).
Arguments Return {A} a.
Arguments Raise {A} e.

(** Truth value of [None]-or-string and of [None]-or-dict. *)
Definition bool_str (s : option string) : bool :=
  match s with
  | None => false
  | Some s => negb (String.eqb s "")
  end.

Definition bool_dict {V} (d : option (gmap string V)) : bool :=
  match d with
  | None => false
  | Some d => negb (Nat.eqb (size d) 0)
  end.

(** [d.get(k)] on a dict whose values may be [None]: a missing key and a
    [None] value both read as [None]. *)
Definition dict_get {V} (d : gmap string (option V)) (k : string) : option V :=
  match d !! k with
  | Some v => v
  | None => None
  end.

(** [a > b] on floats is [b < a]. *)
Definition gtb (a b : float) : bool := PrimFloat.ltb b a.

End Py.

Notation "a >? b" := (Py.gtb a b) (at level 70, no associativity) : float_scope.

(** ** const.py *)

Definition DEFAULT_TOLERANCE : float := 0.5.
Definition DEFAULT_BASE_SHIFT : float := 0.0.
Definition DEFAULT_HIGH_SETPOINT : float := 35.0.
Definition DEFAULT_LOW_SETPOINT : float := 5.0.
Definition DEFAULT_MAX_PRICE_SHIFT : float := 3.0.
Definition DEFAULT_PRICE_STEEPNESS : float := 1.5.

Section ShiftFunction.

(** [math.tanh], the C library's hyperbolic tangent on binary64. *)
Variable math_tanh : float -> float.

Definition price_based_shift_percent
    (price_diff_percent max_shift steepness : float) : float :=
  let p := (price_diff_percent / 100.0)%float in
  ((- max_shift) * math_tanh (steepness * p))%float.

End ShiftFunction.

(** ** The host's vocabulary *)

(** [homeassistant.components.climate.HVACMode] *)
Module HVACMode.
Inductive t := OFF | HEAT | COOL | HEAT_COOL | AUTO | DRY | FAN_ONLY.

Definition eqb (a b : t) : bool :=
  match a, b with
  | OFF, OFF | HEAT, HEAT | COOL, COOL | HEAT_COOL, HEAT_COOL
  | AUTO, AUTO | DRY, DRY | FAN_ONLY, FAN_ONLY => true
  | _, _ => false
  end.

(** [m in modes] *)
Definition mem (m : t) (modes : list t) : bool := existsb (eqb m) modes.
End HVACMode.

(** [homeassistant.components.climate.HVACAction], the three values used. *)
Module HVACAction.
Inductive t := OFF | HEATING | IDLE.
End HVACAction.

(** The observable effects of the component, in the order they happen. *)
Module Effect.
Inductive level := DEBUG | INFO | WARNING | ERROR.

(** The log records of the component, by their format string. *)
Inductive message :=
| Temperature_sensor_unavailable    (* climate.py, _async_control_heating *)
| Heating_state_changed (on : bool) (* climate.py, _async_control_heating *)
| Set_to                            (* climate.py, _async_set_real_thermostat *)
| Failed_to_set (err : Py.Exn)      (* climate.py, _async_set_real_thermostat *)
| Temperature_sensor_not_found      (* __init__.py, _async_update_data *)
| Invalid_temperature_value         (* __init__.py, _async_update_data *)
| Invalid_price_value.              (* __init__.py, _async_update_data *)

Inductive t :=
| service_call (domain service entity_id : string) (temperature : float)
| log (lvl : level) (msg : message)
| write_ha_state.

Definition is_service_call (e : t) : bool :=
  match e with
  | service_call _ _ _ _ => true
  | _ => false
  end.
End Effect.

(** The dict the coordinator publishes: [{"temperature": float | None,
    "price_diff_percent": float | None}]. *)
Abbreviation Data := (gmap string (option float)).

(** ** The two objects *)

(** [entry.data], as the config flow's schemas produce it: the two advanced
    keys are present only when the advanced step ran. *)
Record ConfigEntry := {
  real_thermostat : string;
  temperature_sensor : string;
  price_sensor : option string;
  tolerance : float;
  base_shift : float;
  high_setpoint : float;
  low_setpoint : float;
  max_price_shift : option float;
  price_steepness : option float }.

(** [AdaptiveThermostatCoordinator]: its two sensor ids and the data it last
    published ([None] before the first refresh). *)
Record AdaptiveThermostatCoordinator := {
  temp_sensor_id : string;
  price_sensor_id : option string;
  data : option Data }.

(** [AdaptiveThermostat] (climate.py), the fields [__init__] sets, less the
    entity's name, unique id, unit and feature flags. *)
Record AdaptiveThermostat := {
  _real_thermostat_id : string;
  _temp_sensor_id : string;
  _price_sensor_id : option string;
  _tolerance : float;
  _base_shift : float;
  _high_setpoint : float;
  _low_setpoint : float;
  _max_price_shift : float;
  _price_steepness : float;
  _target_temperature : float;
  _hvac_mode : HVACMode.t;
  _is_heating : bool;
  _attr_hvac_modes : list HVACMode.t;
  _attr_target_temperature_step : float;
  _attr_min_temp : float;
  _attr_max_temp : float }.

Definition with_target_temperature (v : float) (self : AdaptiveThermostat) :=
  {| _real_thermostat_id := _real_thermostat_id self;
     _temp_sensor_id := _temp_sensor_id self;
     _price_sensor_id := _price_sensor_id self;
     _tolerance := _tolerance self;
     _base_shift := _base_shift self;
     _high_setpoint := _high_setpoint self;
     _low_setpoint := _low_setpoint self;
     _max_price_shift := _max_price_shift self;
     _price_steepness := _price_steepness self;
     _target_temperature := v;
     _hvac_mode := _hvac_mode self;
     _is_heating := _is_heating self;
     _attr_hvac_modes := _attr_hvac_modes self;
     _attr_target_temperature_step := _attr_target_temperature_step self;
     _attr_min_temp := _attr_min_temp self;
     _attr_max_temp := _attr_max_temp self |}.

Definition with_hvac_mode (v : HVACMode.t) (self : AdaptiveThermostat) :=
  {| _real_thermostat_id := _real_thermostat_id self;
     _temp_sensor_id := _temp_sensor_id self;
     _price_sensor_id := _price_sensor_id self;
     _tolerance := _tolerance self;
     _base_shift := _base_shift self;
     _high_setpoint := _high_setpoint self;
     _low_setpoint := _low_setpoint self;
     _max_price_shift := _max_price_shift self;
     _price_steepness := _price_steepness self;
     _target_temperature := _target_temperature self;
     _hvac_mode := v;
     _is_heating := _is_heating self;
     _attr_hvac_modes := _attr_hvac_modes self;
     _attr_target_temperature_step := _attr_target_temperature_step self;
     _attr_min_temp := _attr_min_temp self;
     _attr_max_temp := _attr_max_temp self |}.

Definition with_is_heating (v : bool) (self : AdaptiveThermostat) :=
  {| _real_thermostat_id := _real_thermostat_id self;
     _temp_sensor_id := _temp_sensor_id self;
     _price_sensor_id := _price_sensor_id self;
     _tolerance := _tolerance self;
     _base_shift := _base_shift self;
     _high_setpoint := _high_setpoint self;
     _low_setpoint := _low_setpoint self;
     _max_price_shift := _max_price_shift self;
     _price_steepness := _price_steepness self;
     _target_temperature := _target_temperature self;
     _hvac_mode := _hvac_mode self;
     _is_heating := v;
     _attr_hvac_modes := _attr_hvac_modes self;
     _attr_target_temperature_step := _attr_target_temperature_step self;
     _attr_min_temp := _attr_min_temp self;
     _attr_max_temp := _attr_max_temp self |}.

(** [AdaptiveThermostat.__init__] *)
Definition __init__ (entry : ConfigEntry) : AdaptiveThermostat :=
  {| _real_thermostat_id := real_thermostat entry;
     _temp_sensor_id := temperature_sensor entry;
     _price_sensor_id := price_sensor entry;
     _tolerance := tolerance entry;
     _base_shift := base_shift entry;
     _high_setpoint := high_setpoint entry;
     _low_setpoint := low_setpoint entry;
     _max_price_shift := default DEFAULT_MAX_PRICE_SHIFT (max_price_shift entry);
     _price_steepness := default DEFAULT_PRICE_STEEPNESS (price_steepness entry);
     _target_temperature := 20.0;
     _hvac_mode := HVACMode.HEAT;
     _is_heating := false;
     _attr_hvac_modes := [HVACMode.OFF; HVACMode.HEAT];
     _attr_target_temperature_step := 0.5;
     _attr_min_temp := 5.0;
     _attr_max_temp := 35.0 |}.

(** [AdaptiveThermostatCoordinator.__init__] *)
Definition coordinator__init__ (entry : ConfigEntry) : AdaptiveThermostatCoordinator :=
  {| temp_sensor_id := temperature_sensor entry;
     price_sensor_id := price_sensor entry;
     data := None |}.

(** ** The world a coroutine runs in *)

(** The host's state machine ([hass.states]: entity id to state string), the
    coordinator, the entity, and the effects so far (latest last). *)
Record World := {
  hass_states : gmap string string;
  coordinator : AdaptiveThermostatCoordinator;
  thermostat : AdaptiveThermostat;
  trace : list Effect.t }.

Definition with_thermostat (f : AdaptiveThermostat -> AdaptiveThermostat) (w : World) : World :=
  {| hass_states := hass_states w;
     coordinator := coordinator w;
     thermostat := f (thermostat w);
     trace := trace w |}.

Definition with_effect (e : Effect.t) (w : World) : World :=
  {| hass_states := hass_states w;
     coordinator := coordinator w;
     thermostat := thermostat w;
     trace := trace w ++ [e] |}.

(** The coordinator publishes [d] (the host assigns [coordinator.data]). *)
Definition with_data (d : option Data) (w : World) : World :=
  {| hass_states := hass_states w;
     coordinator := {| temp_sensor_id := temp_sensor_id (coordinator w);
                       price_sensor_id := price_sensor_id (coordinator w);
                       data := d |};
     thermostat := thermostat w;
     trace := trace w |}.

(** A coroutine: it may change the world and then returns or raises; the
    changes made before a raise stay. *)
Definition Coro (A : Type) : Type := World -> Py.Result A * World.

#[global] Instance Coro_ret : MRet Coro := fun A a w => (Py.Return a, w).
#[global] Instance Coro_bind : MBind Coro := fun A B k m w =>
  match m w with
  | (Py.Return a, w') => k a w'
  | (Py.Raise e, w') => (Py.Raise e, w')
  end.

Definition gets {A} (f : World -> A) : Coro A := fun w => (Py.Return (f w), w).
Definition modify (f : World -> World) : Coro unit := fun w => (Py.Return tt, f w).
Definition emit (e : Effect.t) : Coro unit := modify (with_effect e).
Definition lift {A} (r : Py.Result A) : Coro A := fun w => (r, w).

(** [try: body / except <classes> as err: handler err]: an exception of
    another class goes through. *)
Definition try_except {A} (body : Coro A) (classes : Py.Exn -> bool)
    (handler : Py.Exn -> Coro A) : Coro A := fun w =>
  match body w with
  | (Py.Return a, w') => (Py.Return a, w')
  | (Py.Raise e, w') => if classes e then handler e w' else (Py.Raise e, w')
  end.

(** [_LOGGER.<level>(...)] and [self.async_write_ha_state()] *)
Definition _LOGGER (lvl : Effect.level) (msg : Effect.message) : Coro unit :=
  emit (Effect.log lvl msg).
Definition async_write_ha_state : Coro unit := emit Effect.write_ha_state.

(** ** climate.py and __init__.py *)

Section Component.

(** [math.tanh]. *)
Variable math_tanh : float -> float.

(** The builtin [float] applied to a state string: the value, or the
    exception it raises. *)
Variable builtin_float : string -> Py.Result float.

(** [hass.services.async_call(domain, service, {"entity_id": ...,
    "temperature": ...}, blocking=True)] as the component sees it: [None]
    when the call returns, [Some e] when it raises [e].  The outcome may
    depend on everything that happened before. *)
Variable services_async_call :
  World -> string -> string -> string -> float -> option Py.Exn.

Definition hass_services_async_call
    (domain service entity_id : string) (temperature : float) : Coro unit :=
  fun w =>
    let w' := with_effect (Effect.service_call domain service entity_id temperature) w in
    match services_async_call w domain service entity_id temperature with
    | None => (Py.Return tt, w')
    | Some e => (Py.Raise e, w')
    end.

(** *** The entity's properties *)

Definition current_temperature (w : World) : option float :=
  match data (coordinator w) with
  | None => None
  | Some d => Py.dict_get d "temperature"
  end.

Definition target_temperature (w : World) : float :=
  _target_temperature (thermostat w).

Definition hvac_mode (w : World) : HVACMode.t :=
  _hvac_mode (thermostat w).

Definition hvac_action (w : World) : HVACAction.t :=
  if HVACMode.eqb (_hvac_mode (thermostat w)) HVACMode.OFF then HVACAction.OFF
  else if _is_heating (thermostat w) then HVACAction.HEATING
  else HVACAction.IDLE.

(** *** [_calculate_total_shift] *)

Definition _calculate_total_shift (w : World) : float :=
  let self := thermostat w in
  let total_shift := _base_shift self in
  if Py.bool_str (_price_sensor_id self) && Py.bool_dict (data (coordinator w)) then
    match data (coordinator w) ≫= (λ d, Py.dict_get d "price_diff_percent") with
    | Some price_diff =>
        let price_shift :=
          price_based_shift_percent math_tanh price_diff
            (_max_price_shift self) (_price_steepness self) in
        (total_shift + price_shift)%float
    | None => total_shift
    end
  else total_shift.

(** *** [_async_set_real_thermostat] *)

Definition _async_set_real_thermostat (temperature : float) : Coro unit :=
  try_except
    (self ← gets thermostat;
     hass_services_async_call "climate" "set_temperature"
       (_real_thermostat_id self) temperature;;
     _LOGGER Effect.DEBUG Effect.Set_to)
    Py.isinstance_Exception
    (λ err, _LOGGER Effect.ERROR (Effect.Failed_to_set err)).

(** *** [_async_control_heating] *)

(** The hysteresis decision of lines 171-181. *)
Definition should_heat
    (current_temp target tolerance total_shift : float) (is_heating : bool) : bool :=
  if (current_temp <? target - tolerance + total_shift)%float then true
  else if (current_temp >? target + tolerance + total_shift)%float then false
  else is_heating.

Definition _async_control_heating : Coro unit :=
  self ← gets thermostat;
  if HVACMode.eqb (_hvac_mode self) HVACMode.OFF then mret tt
  else
    current_temp ← gets current_temperature;
    match current_temp with
    | None => _LOGGER Effect.WARNING Effect.Temperature_sensor_unavailable
    | Some current_temp =>
        total_shift ← gets _calculate_total_shift;
        let target := _target_temperature self in
        let tolerance := _tolerance self in
        let should_heat :=
          should_heat current_temp target tolerance total_shift (_is_heating self) in
        if negb (Bool.eqb should_heat (_is_heating self)) then
          modify (with_thermostat (with_is_heating should_heat));;
          let setpoint :=
            if should_heat then _high_setpoint self else _low_setpoint self in
          _async_set_real_thermostat setpoint;;
          _LOGGER Effect.INFO (Effect.Heating_state_changed should_heat)
        else mret tt
    end.

(** *** The two commands *)

(** [kwargs] maps a keyword to the number passed for it;
    [ATTR_TEMPERATURE] is ["temperature"]. *)
Definition async_set_temperature (kwargs : gmap string float) : Coro unit :=
  match kwargs !! "temperature" with
  | None => mret tt
  | Some temperature =>
      modify (with_thermostat (with_target_temperature temperature));;
      _async_control_heating;;
      async_write_ha_state
  end.

Definition async_set_hvac_mode (hvac_mode : HVACMode.t) : Coro unit :=
  self ← gets thermostat;
  if negb (HVACMode.mem hvac_mode (_attr_hvac_modes self)) then mret tt
  else
    modify (with_thermostat (with_hvac_mode hvac_mode));;
    (if HVACMode.eqb hvac_mode HVACMode.OFF then
       _async_set_real_thermostat (_low_setpoint self);;
       modify (with_thermostat (with_is_heating false))
     else
       _async_control_heating);;
    async_write_ha_state.

(** *** [AdaptiveThermostatCoordinator._async_update_data] *)

Definition _async_update_data : Coro Data :=
  self ← gets coordinator;
  let data : Data := ∅ in
  temp_state ← gets (λ w, hass_states w !! temp_sensor_id self);
  data ← match temp_state with
          | None =>
              _LOGGER Effect.WARNING Effect.Temperature_sensor_not_found;;
              mret (<["temperature" := None]> data)
          | Some state =>
              try_except
                (v ← lift (builtin_float state);
                 mret (<["temperature" := Some v]> data))
                Py.isinstance_ValueError_TypeError
                (λ _, _LOGGER Effect.WARNING Effect.Invalid_temperature_value;;
                      mret (<["temperature" := None]> data))
          end;
  let data := <["price_diff_percent" := None]> data in
  if Py.bool_str (price_sensor_id self) then
    price_state ← gets (λ w, price_sensor_id self ≫= (λ id, hass_states w !! id));
    match price_state with
    | Some state =>
        try_except
          (v ← lift (builtin_float state);
           mret (<["price_diff_percent" := Some v]> data))
          Py.isinstance_ValueError_TypeError
          (λ _, _LOGGER Effect.WARNING Effect.Invalid_price_value;;
                mret data)
    | None => mret data
    end
  else mret data.

End Component.

(** ** Observing a run *)

Definition run {A} (c : Coro A) (w : World) : World := snd (c w).
Definition outcome {A} (c : Coro A) (w : World) : Py.Result A := fst (c w).

(** The effects a run adds to the trace. *)
Definition effects {A} (c : Coro A) (w : World) : list Effect.t :=
  drop (length (trace w)) (trace (run c w)).

(** The setpoints the actuator was commanded, one per service call. *)
Definition commanded (es : list Effect.t) : list float :=
  omap (λ e, match e with
             | Effect.service_call _ _ _ t => Some t
             | _ => None
             end) es.

(** The thresholds of the dead-band. *)
Definition lower (self : AdaptiveThermostat) (total_shift : float) : float :=
  (_target_temperature self - _tolerance self + total_shift)%float.
Definition upper (self : AdaptiveThermostat) (total_shift : float) : float :=
  (_target_temperature self + _tolerance self + total_shift)%float.

(** ** The vocabulary of the properties *)

(** Whether a price source is configured (the id is a non-empty string), and
    the price reading of the data last published. *)
Definition price_source_configured (w : World) : bool :=
  Py.bool_str (_price_sensor_id (thermostat w)).
Definition price_reading (w : World) : option float :=
  data (coordinator w) ≫= (λ d, Py.dict_get d "price_diff_percent").

(** The call that always returns. *)
Definition reliable : World -> string -> string -> string -> float -> option Py.Exn :=
  λ _ _ _ _ _, None.

(** The call that always raises [e]. *)
Definition failing (e : Py.Exn) :
    World -> string -> string -> string -> float -> option Py.Exn :=
  λ _ _ _ _ _, Some e.

(** What happens to an entity after its creation: the coordinator publishes
    new data, the task that [_handle_coordinator_update] creates runs
    [_async_control_heating], or the user issues one of the two commands. *)
Inductive Input :=
| Publish (d : option Data)
| Evaluate
| Set_temperature (kwargs : gmap string float)
| Set_hvac_mode (hvac_mode : HVACMode.t).

(** The world right after setup. *)
Definition setup (entry : ConfigEntry) (states : gmap string string) : World :=
  {| hass_states := states;
     coordinator := coordinator__init__ entry;
     thermostat := __init__ entry;
     trace := [] |}.

Section Steps.

Variable math_tanh : float -> float.
Variable services_async_call :
  World -> string -> string -> string -> float -> option Py.Exn.

Definition step (w : World) (i : Input) : World :=
  match i with
  | Publish d => with_data d w
  | Evaluate => run (_async_control_heating math_tanh services_async_call) w
  | Set_temperature kwargs => run (async_set_temperature math_tanh services_async_call kwargs) w
  | Set_hvac_mode m => run (async_set_hvac_mode math_tanh services_async_call m) w
  end.

Definition history (entry : ConfigEntry) (states : gmap string string)
    (inputs : list Input) : World :=
  foldl step (setup entry states) inputs.

End Steps.

(** What every world of a history satisfies: the configuration is the
    entry's, the mode is OFF or HEAT, and in mode OFF the heating bit is
    clear and the last setpoint commanded is the low one. *)
Record invariant (entry : ConfigEntry) (w : World) : Prop := {
  inv_modes : _attr_hvac_modes (thermostat w) = [HVACMode.OFF; HVACMode.HEAT];
  inv_id : _real_thermostat_id (thermostat w) = real_thermostat entry;
  inv_low : _low_setpoint (thermostat w) = low_setpoint entry;
  inv_high : _high_setpoint (thermostat w) = high_setpoint entry;
  inv_mode : _hvac_mode (thermostat w) = HVACMode.OFF \/
             _hvac_mode (thermostat w) = HVACMode.HEAT;
  inv_off : _hvac_mode (thermostat w) = HVACMode.OFF ->
            _is_heating (thermostat w) = false /\
            last (commanded (trace w)) = Some (low_setpoint entry) }.

Section Readings.

Variable builtin_float : string -> Py.Result float.

(** What a sensor's state reads as: absent when the entity is missing or its
    state is not a number. *)
Definition reading_of (state : option string) : option float :=
  match state with
  | None => None
  | Some s =>
      match builtin_float s with
      | Py.Return v => Some v
      | Py.Raise _ => None
      end
  end.

Definition temperature_reading (w : World) : option float :=
  reading_of (hass_states w !! temp_sensor_id (coordinator w)).

Definition price_diff_reading (w : World) : option float :=
  if Py.bool_str (price_sensor_id (coordinator w))
  then reading_of (price_sensor_id (coordinator w) ≫= (λ id, hass_states w !! id))
  else None.

End Readings.

Definition is_warning (e : Effect.t) : Prop :=
  exists msg, e = Effect.log Effect.WARNING msg.

(** What [price_based_shift_percent] computes, in exact real
    arithmetic: what the binary64 code rounds. *)
Module Exact.

Definition price_based_shift_percent
    (price_diff_percent max_shift steepness : R) : R :=
  let p := (price_diff_percent / 100)%R in
  (- max_shift * tanh (steepness * p))%R.

End Exact.



(** The claim of clamping, on the code: after the command the target lies
    in the range the entity declares. *)
Definition clamps_target (math_tanh : float -> float)
    (services_async_call : World -> string -> string -> string -> float -> option Py.Exn)
    : Prop :=
  forall (w : World) (kwargs : gmap string float) (t : float),
    kwargs !! "temperature" = Some t ->
    let after :=
      thermostat (run (async_set_temperature math_tanh services_async_call kwargs) w) in
    (_attr_min_temp after <=? _target_temperature after)%float = true /\
    (_target_temperature after <=? _attr_max_temp after)%float = true.

(** ** The vocabulary of the histories *)

(** The service calls among some effects. *)
Definition calls (es : list Effect.t) : list Effect.t :=
  List.filter Effect.is_service_call es.

(** The one call the component makes: [climate.set_temperature] on the real
    thermostat. *)
Definition set_temperature_call (self : AdaptiveThermostat) (t : float) : Effect.t :=
  Effect.service_call "climate" "set_temperature" (_real_thermostat_id self) t.

(** The call an evaluation makes when it moves the heating bit to [b]: none
    when the bit is [b] already. *)
Definition transition_call (self : AdaptiveThermostat) (b : bool) : list Effect.t :=
  if Bool.eqb b (_is_heating self) then []
  else [set_temperature_call self (if b then _high_setpoint self else _low_setpoint self)].

(** The target temperature and the mode an input asks for. *)
Definition next_target (self : AdaptiveThermostat) (i : Input) : float :=
  match i with
  | Set_temperature kwargs => default (_target_temperature self) (kwargs !! "temperature")
  | _ => _target_temperature self
  end.

Definition next_mode (self : AdaptiveThermostat) (i : Input) : HVACMode.t :=
  match i with
  | Set_hvac_mode m =>
      if HVACMode.mem m (_attr_hvac_modes self) then m else _hvac_mode self
  | _ => _hvac_mode self
  end.

(** The inputs that run the evaluation: an evaluation, a temperature command
    with a temperature, a mode command with a supported mode other than OFF.
    The inputs that switch off: the mode command OFF, when supported.  An
    input takes effect when it is of one of the two kinds. *)
Definition evaluates (self : AdaptiveThermostat) (i : Input) : bool :=
  match i with
  | Publish _ => false
  | Evaluate => true
  | Set_temperature kwargs => bool_decide (is_Some (kwargs !! "temperature"))
  | Set_hvac_mode m =>
      HVACMode.mem m (_attr_hvac_modes self) && negb (HVACMode.eqb m HVACMode.OFF)
  end.

Definition switches_off (self : AdaptiveThermostat) (i : Input) : bool :=
  match i with
  | Set_hvac_mode m =>
      HVACMode.mem m (_attr_hvac_modes self) && HVACMode.eqb m HVACMode.OFF
  | _ => false
  end.

Definition takes_effect (self : AdaptiveThermostat) (i : Input) : bool :=
  evaluates self i || switches_off self i.

(** The world an input prepares before any evaluation: the target or the
    mode assigned, or the data published. *)
Definition prepared (w : World) (i : Input) : World :=
  match i with
  | Publish d => with_data d w
  | Evaluate => w
  | Set_temperature _ =>
      with_thermostat (with_target_temperature (next_target (thermostat w) i)) w
  | Set_hvac_mode _ =>
      with_thermostat (with_hvac_mode (next_mode (thermostat w) i)) w
  end.

Definition is_mode_command (i : Input) : bool :=
  match i with
  | Set_hvac_mode _ => true
  | _ => false
  end.

(** The setpoints high, low, high, ... : the first [n] of them. *)
Fixpoint alternating (high low : float) (n : nat) : list float :=
  match n with
  | O => []
  | S n => alternating high low n ++ [if Nat.even n then high else low]
  end.

Section Decision.

Variable math_tanh : float -> float.

(** The heating bit an evaluation leaves. *)
Definition decision (w : World) : bool :=
  let self := thermostat w in
  if HVACMode.eqb (_hvac_mode self) HVACMode.OFF then _is_heating self
  else
    match current_temperature w with
    | None => _is_heating self
    | Some t =>
        should_heat t (_target_temperature self) (_tolerance self)
          (_calculate_total_shift math_tanh w) (_is_heating self)
    end.

End Decision.
(** The target temperature and the mode after some inputs: the last ones
    commanded, 20.0 and HEAT to begin with; a temperature command without a
    temperature and a mode other than OFF and HEAT do not count. *)
Definition target_after (t : float) (i : Input) : float :=
  match i with
  | Set_temperature kwargs => default t (kwargs !! "temperature")
  | _ => t
  end.

Definition mode_after (m : HVACMode.t) (i : Input) : HVACMode.t :=
  match i with
  | Set_hvac_mode m' =>
      if HVACMode.mem m' [HVACMode.OFF; HVACMode.HEAT] then m' else m
  | _ => m
  end.

Definition last_target (inputs : list Input) : float :=
  foldl target_after 20.0%float inputs.

Definition last_mode (inputs : list Input) : HVACMode.t :=
  foldl mode_after HVACMode.HEAT inputs.

(** The entity of an entry with the three fields that change. *)
Definition entity_of (entry : ConfigEntry) (target : float) (mode : HVACMode.t)
    (heating : bool) : AdaptiveThermostat :=
  with_is_heating heating
    (with_hvac_mode mode (with_target_temperature target (__init__ entry))).

(** The call [climate.set_temperature] on the entry's real thermostat. *)
Definition call_of (entry : ConfigEntry) (t : float) : Effect.t :=
  Effect.service_call "climate" "set_temperature" (real_thermostat entry) t.

(** *** [extra_state_attributes] *)

(** The value of a state attribute: a number or a string. *)
Module Attr.
Inductive t :=
| number (v : float)
| text (s : string).
End Attr.

Definition ATTR_CURRENT_SHIFT : string := "current_shift".
Definition ATTR_PRICE_DIFF_PERCENT : string := "price_diff_percent".
Definition ATTR_HEATING_STATE : string := "heating_state".

Section Attributes.

Variable math_tanh : float -> float.

Definition extra_state_attributes (w : World) : gmap string Attr.t :=
  let self := thermostat w in
  let attrs : gmap string Attr.t :=
    <[ATTR_HEATING_STATE := Attr.text (if _is_heating self then "heating" else "idle")]>
      (<[ATTR_CURRENT_SHIFT := Attr.number (_calculate_total_shift math_tanh w)]> ∅) in
  if Py.bool_dict (data (coordinator w)) then
    match data (coordinator w) ≫= (λ d, Py.dict_get d "price_diff_percent") with
    | Some price_diff => <[ATTR_PRICE_DIFF_PERCENT := Attr.number price_diff]> attrs
    | None => attrs
    end
  else attrs.

End Attributes.

(** The host's refresh, as far as the component sees it: the dict the fetch
    returns becomes [coordinator.data]. *)
Definition refreshed (builtin_float : string -> Py.Result float) (w : World) : World :=
  match _async_update_data builtin_float w with
  | (Py.Return d, w') => with_data (Some d) w'
  | (Py.Raise _, w') => w'
  end.

(** ** config_flow.py *)

Definition CONF_REAL_THERMOSTAT : string := "real_thermostat".
Definition CONF_TEMP_SENSOR : string := "temperature_sensor".
Definition CONF_PRICE_SENSOR : string := "price_sensor".
Definition CONF_TOLERANCE : string := "tolerance".
Definition CONF_BASE_SHIFT : string := "base_shift".
Definition CONF_HIGH_SETPOINT : string := "high_setpoint".
Definition CONF_LOW_SETPOINT : string := "low_setpoint".
Definition CONF_MAX_PRICE_SHIFT : string := "max_price_shift".
Definition CONF_PRICE_STEEPNESS : string := "price_steepness".

(** [s.split('.')[-1]]: what follows the last dot, or all of [s] when it
    has none. *)
Fixpoint after_last_dot (s : string) : option string :=
  match s with
  | EmptyString => None
  | String c s' =>
      match after_last_dot s' with
      | Some t => Some t
      | None => if String.eqb (String c EmptyString) "." then Some s' else None
      end
  end.

Definition split_dot_last (s : string) : string := default s (after_last_dot s).

(** What a step of the config flow returns or raises: a form to show (its
    step and its errors), the entry to create, [AbortFlow] (raised by the
    host's checks of the unique id) or [KeyError] (a subscript on a key the
    dict lacks). *)
Module FlowResult.
Inductive t :=
| show_form (step_id : string) (errors : gmap string string)
| create_entry (title : string) (data : ConfigEntry)
| AbortFlow (reason : string)
| KeyError (key : string).
End FlowResult.

(** The input of the advanced step: the two keys of its schema. *)
Record AdvancedInput := {
  adv_max_price_shift : option float;
  adv_price_steepness : option float }.

(** [{**basic, **user_input}] for the input of the advanced step. *)
Definition merge_advanced (basic : ConfigEntry) (user_input : AdvancedInput) : ConfigEntry :=
  {| real_thermostat := real_thermostat basic;
     temperature_sensor := temperature_sensor basic;
     price_sensor := price_sensor basic;
     tolerance := tolerance basic;
     base_shift := base_shift basic;
     high_setpoint := high_setpoint basic;
     low_setpoint := low_setpoint basic;
     max_price_shift :=
       match adv_max_price_shift user_input with
       | Some v => Some v
       | None => max_price_shift basic
       end;
     price_steepness :=
       match adv_price_steepness user_input with
       | Some v => Some v
       | None => price_steepness basic
       end |}.

(** [AdaptiveThermostatConfigFlow]: [_basic_config] is [None] for the empty
    dict of [__init__], and then the input of the user step. *)
Record AdaptiveThermostatConfigFlow := {
  _basic_config : option ConfigEntry }.

Definition ConfigFlow__init__ : AdaptiveThermostatConfigFlow :=
  {| _basic_config := None |}.

Section ConfigFlow.

(** [hass.states]; and the host's two checks of a unique id
    ([async_set_unique_id], [_abort_if_unique_id_configured]): the reason of
    the [AbortFlow] that one of them raises, if any. *)
Variable states : gmap string string.
Variable unique_id_aborts : string -> option string.

Definition _validate_entities (user_input : ConfigEntry) : gmap string string :=
  let errors : gmap string string := ∅ in
  let errors :=
    if negb (bool_decide (is_Some (states !! real_thermostat user_input)))
    then <[CONF_REAL_THERMOSTAT := "entity_not_found"]> errors else errors in
  let errors :=
    if negb (bool_decide (is_Some (states !! temperature_sensor user_input)))
    then <[CONF_TEMP_SENSOR := "entity_not_found"]> errors else errors in
  let errors :=
    if Py.bool_str (price_sensor user_input) then
      if negb (bool_decide (is_Some (price_sensor user_input ≫= (λ id, states !! id))))
      then <[CONF_PRICE_SENSOR := "entity_not_found"]> errors else errors
    else errors in
  let errors :=
    if (high_setpoint user_input <=? low_setpoint user_input)%float
    then <[CONF_HIGH_SETPOINT := "high_must_exceed_low"]> errors else errors in
  errors.

(** The lines that end each step that creates the entry: the two checks of
    the unique id, which is the real thermostat's id, and
    [async_create_entry] with the title. *)
Definition create (data : ConfigEntry) : FlowResult.t :=
  match unique_id_aborts (real_thermostat data) with
  | Some reason => FlowResult.AbortFlow reason
  | None =>
      FlowResult.create_entry
        (String.append "Adaptive " (split_dot_last (real_thermostat data))) data
  end.

Definition async_step_advanced (self : AdaptiveThermostatConfigFlow)
    (user_input : option AdvancedInput) : FlowResult.t * AdaptiveThermostatConfigFlow :=
  match user_input with
  | Some user_input =>
      match _basic_config self with
      | Some basic => (create (merge_advanced basic user_input), self)
      | None => (FlowResult.KeyError CONF_REAL_THERMOSTAT, self)
      end
  | None =>
      if negb (Py.bool_str (_basic_config self ≫= price_sensor)) then
        match _basic_config self with
        | Some basic => (create basic, self)
        | None => (FlowResult.KeyError CONF_REAL_THERMOSTAT, self)
        end
      else (FlowResult.show_form "advanced" ∅, self)
  end.

Definition async_step_user (self : AdaptiveThermostatConfigFlow)
    (user_input : option ConfigEntry) : FlowResult.t * AdaptiveThermostatConfigFlow :=
  match user_input with
  | Some user_input =>
      let errors := _validate_entities user_input in
      if negb (Py.bool_dict (Some errors)) then
        let self := {| _basic_config := Some user_input |} in
        if Py.bool_str (price_sensor user_input) then async_step_advanced self None
        else (create user_input, self)
      else (FlowResult.show_form "user" errors, self)
  | None => (FlowResult.show_form "user" ∅, self)
  end.

End ConfigFlow.

(** The calls the host may make on a flow, each with the host's state at the
    time. *)
Inductive FlowCall :=
| Call_user (states : gmap string string) (unique_id_aborts : string -> option string)
    (user_input : option ConfigEntry)
| Call_advanced (unique_id_aborts : string -> option string)
    (user_input : option AdvancedInput).

Definition flow_call (self : AdaptiveThermostatConfigFlow) (c : FlowCall)
    : FlowResult.t * AdaptiveThermostatConfigFlow :=
  match c with
  | Call_user states unique_id_aborts user_input =>
      async_step_user states unique_id_aborts self user_input
  | Call_advanced unique_id_aborts user_input =>
      async_step_advanced unique_id_aborts self user_input
  end.

(** The results of some calls on a flow, in order. *)
Fixpoint flow_results (self : AdaptiveThermostatConfigFlow) (cs : list FlowCall)
    : list FlowResult.t :=
  match cs with
  | [] => []
  | c :: cs => let '(r, self) := flow_call self c in r :: flow_results self cs
  end.

(** *** The options flow *)

(** The input of the options step: the keys of its schema. *)
Record OptionsInput := {
  opt_tolerance : option float;
  opt_base_shift : option float;
  opt_high_setpoint : option float;
  opt_low_setpoint : option float;
  opt_max_price_shift : option float;
  opt_price_steepness : option float }.

(** [{**self.config_entry.data, **user_input}] *)
Definition merge_options (data : ConfigEntry) (user_input : OptionsInput) : ConfigEntry :=
  {| real_thermostat := real_thermostat data;
     temperature_sensor := temperature_sensor data;
     price_sensor := price_sensor data;
     tolerance := default (tolerance data) (opt_tolerance user_input);
     base_shift := default (base_shift data) (opt_base_shift user_input);
     high_setpoint := default (high_setpoint data) (opt_high_setpoint user_input);
     low_setpoint := default (low_setpoint data) (opt_low_setpoint user_input);
     max_price_shift :=
       match opt_max_price_shift user_input with
       | Some v => Some v
       | None => max_price_shift data
       end;
     price_steepness :=
       match opt_price_steepness user_input with
       | Some v => Some v
       | None => price_steepness data
       end |}.

(** What the options step returns: the form, with the default of each key
    of its schema in order, or the (empty) options entry. *)
Module OptionsResult.
Inductive t :=
| show_form (step_id : string) (schema : list (string * float))
| create_entry.
End OptionsResult.

(** [AdaptiveThermostatOptionsFlow.async_step_init]: the result, and the
    data of the config entry after the step. *)
Definition async_step_init (config_entry : ConfigEntry) (user_input : option OptionsInput)
    : OptionsResult.t * ConfigEntry :=
  match user_input with
  | Some user_input =>
      (OptionsResult.create_entry, merge_options config_entry user_input)
  | None =>
      let current_data := config_entry in
      let options_schema_dict :=
        [(CONF_TOLERANCE, tolerance current_data);
         (CONF_BASE_SHIFT, base_shift current_data);
         (CONF_HIGH_SETPOINT, high_setpoint current_data);
         (CONF_LOW_SETPOINT, low_setpoint current_data)] in
      let options_schema_dict :=
        if Py.bool_str (price_sensor current_data) then
          options_schema_dict ++
            [(CONF_MAX_PRICE_SHIFT,
              default DEFAULT_MAX_PRICE_SHIFT (max_price_shift current_data));
             (CONF_PRICE_STEEPNESS,
              default DEFAULT_PRICE_STEEPNESS (price_steepness current_data))]
        else options_schema_dict in
      (OptionsResult.show_form "init" options_schema_dict, config_entry)
  end.

(** The form submitted as shown: every key of the schema with its
    default. *)
Definition schema_get (schema : list (string * float)) (k : string) : option float :=
  snd <$> List.find (λ kv, String.eqb (fst kv) k) schema.

Definition unchanged (schema : list (string * float)) : OptionsInput :=
  {| opt_tolerance := schema_get schema CONF_TOLERANCE;
     opt_base_shift := schema_get schema CONF_BASE_SHIFT;
     opt_high_setpoint := schema_get schema CONF_HIGH_SETPOINT;
     opt_low_setpoint := schema_get schema CONF_LOW_SETPOINT;
     opt_max_price_shift := schema_get schema CONF_MAX_PRICE_SHIFT;
     opt_price_steepness := schema_get schema CONF_PRICE_STEEPNESS |}.

(** What a flow has stored passed the validation, on the states of the
    time. *)
Definition stored_is_valid (self : AdaptiveThermostatConfigFlow) : Prop :=
  forall basic, _basic_config self = Some basic ->
    exists states, _validate_entities states basic = ∅.

(** What the flow creates: an entry whose basic part passed the validation,
    with the title made of its real thermostat's id. *)
Definition created_is_valid (r : FlowResult.t) : Prop :=
  match r with
  | FlowResult.create_entry title data =>
      title = String.append "Adaptive " (split_dot_last (real_thermostat data)) /\
      exists states basic,
        _validate_entities states basic = ∅ /\
        (data = basic \/ exists user_input, data = merge_advanced basic user_input)
  | _ => True
  end.

(** ** __init__.py: the price listener and the registry *)

(** The coordinator with its field [_price_listener_unsubscribe]: [None],
    or the callable that [async_track_state_change_event] returned, named by
    the listener it removes. *)
Record Coordinator := {
  fields : AdaptiveThermostatCoordinator;
  _price_listener_unsubscribe : option nat }.

(** [hass], as far as the setup and the unload use it: [hass.data[DOMAIN]]
    ([None] until [setdefault] creates it), which maps an entry id to the
    coordinator stored under [ENTRY_DATA_COORDINATOR], and the state-change
    listeners the host tracks, each with the entity ids it listens to. *)
Record Hass := {
  hass_data : option (gmap string Coordinator);
  hass_listeners : gmap nat (list string) }.

(** [async_track_state_change_event(hass, entity_ids, action)]: the host
    tracks one more listener and returns the callable that removes it. *)
Definition async_track_state_change_event (entity_ids : list string) (hass : Hass)
    : nat * Hass :=
  let handle := fresh (dom (hass_listeners hass)) in
  (handle, {| hass_data := hass_data hass;
              hass_listeners := <[handle := entity_ids]> (hass_listeners hass) |}).

(** Calling the callable [handle]. *)
Definition unsubscribe (handle : nat) (hass : Hass) : Hass :=
  {| hass_data := hass_data hass;
     hass_listeners := delete handle (hass_listeners hass) |}.

(** [AdaptiveThermostatCoordinator.__init__], with the handle. *)
Definition Coordinator__init__ (entry : ConfigEntry) : Coordinator :=
  {| fields := coordinator__init__ entry;
     _price_listener_unsubscribe := None |}.

Definition async_start (self : Coordinator) (hass : Hass) : Coordinator * Hass :=
  if Py.bool_str (price_sensor_id (fields self)) then
    let '(handle, hass) :=
      async_track_state_change_event
        (option_list (price_sensor_id (fields self))) hass in
    ({| fields := fields self; _price_listener_unsubscribe := Some handle |}, hass)
  else (self, hass).

Definition async_stop (self : Coordinator) (hass : Hass) : Coordinator * Hass :=
  match _price_listener_unsubscribe self with
  | Some handle =>
      ({| fields := fields self; _price_listener_unsubscribe := None |},
       unsubscribe handle hass)
  | None => (self, hass)
  end.

(** The coordinator of an entry id changes: every holder of the object sees
    the change, the registry among them. *)
Definition store (entry_id : string) (coordinator : Coordinator) (hass : Hass) : Hass :=
  {| hass_data := Some (<[entry_id := coordinator]> (default ∅ (hass_data hass)));
     hass_listeners := hass_listeners hass |}.

Definition pop (entry_id : string) (hass : Hass) : Hass :=
  {| hass_data := delete entry_id <$> hass_data hass;
     hass_listeners := hass_listeners hass |}.

(** [hass.data[DOMAIN].get(entry_id)]: the coordinator registered for an
    entry. *)
Definition registered (entry_id : string) (hass : Hass) : option Coordinator :=
  hass_data hass ≫= (λ entries, entries !! entry_id).

Section Entry.

(** [coordinator.async_config_entry_first_refresh()]: the dict of the first
    fetch, which the host assigns to [coordinator.data], or the exception
    raised. *)
Variable async_config_entry_first_refresh :
  AdaptiveThermostatCoordinator -> Py.Result Data.

(** [hass.config_entries.async_forward_entry_setups(entry, PLATFORMS)]:
    [None] when it returns. *)
Variable async_forward_entry_setups : Hass -> option Py.Exn.

(** [hass.config_entries.async_unload_platforms(entry, PLATFORMS)] *)
Variable async_unload_platforms : Hass -> Py.Result bool.

(** The update listener that the last statement registers lives in the
    host's entry object. *)
Definition async_setup_entry (entry_id : string) (entry : ConfigEntry) (hass : Hass)
    : Py.Result bool * Hass :=
  let hass := {| hass_data := Some (default ∅ (hass_data hass));
                 hass_listeners := hass_listeners hass |} in
  let coordinator := Coordinator__init__ entry in
  match async_config_entry_first_refresh (fields coordinator) with
  | Py.Raise e => (Py.Raise e, hass)
  | Py.Return d =>
      let coordinator :=
        {| fields := {| temp_sensor_id := temp_sensor_id (fields coordinator);
                        price_sensor_id := price_sensor_id (fields coordinator);
                        data := Some d |};
           _price_listener_unsubscribe := _price_listener_unsubscribe coordinator |} in
      let '(coordinator, hass) := async_start coordinator hass in
      let hass := store entry_id coordinator hass in
      match async_forward_entry_setups hass with
      | Some e => (Py.Raise e, hass)
      | None => (Py.Return true, hass)
      end
  end.

Definition async_unload_entry (entry_id : string) (hass : Hass)
    : Py.Result bool * Hass :=
  match registered entry_id hass with
  | None => (Py.Raise Py.KeyError, hass)
  | Some coordinator =>
      let '(coordinator, hass) := async_stop coordinator hass in
      let hass := store entry_id coordinator hass in
      match async_unload_platforms hass with
      | Py.Raise e => (Py.Raise e, hass)
      | Py.Return unload_ok =>
          (Py.Return unload_ok, if unload_ok then pop entry_id hass else hass)
      end
  end.

End Entry.

(** ** The worlds of the examples *)

(** An entry with the defaults of the config flow and no price sensor, and
    one with a price sensor and the defaults of the advanced step. *)
Definition living_room : ConfigEntry :=
  {| real_thermostat := "climate.living_room";
     temperature_sensor := "sensor.living_room_temperature";
     price_sensor := None;
     tolerance := DEFAULT_TOLERANCE;
     base_shift := DEFAULT_BASE_SHIFT;
     high_setpoint := DEFAULT_HIGH_SETPOINT;
     low_setpoint := DEFAULT_LOW_SETPOINT;
     max_price_shift := None;
     price_steepness := None |}.

Definition living_room_priced : ConfigEntry :=
  {| real_thermostat := "climate.living_room";
     temperature_sensor := "sensor.living_room_temperature";
     price_sensor := Some "sensor.price_diff";
     tolerance := DEFAULT_TOLERANCE;
     base_shift := DEFAULT_BASE_SHIFT;
     high_setpoint := DEFAULT_HIGH_SETPOINT;
     low_setpoint := DEFAULT_LOW_SETPOINT;
     max_price_shift := Some DEFAULT_MAX_PRICE_SHIFT;
     price_steepness := Some DEFAULT_PRICE_STEEPNESS |}.

(** The dict of a fetch. *)
Definition published (temperature price_diff_percent : option float) : Data :=
  <["price_diff_percent" := price_diff_percent]> (<["temperature" := temperature]> ∅).

(** Right after setup, with 19.3 degrees published (the spec's scenario A). *)
Definition scenario_A : World :=
  with_data (Some (published (Some 19.3%float) None)) (setup living_room ∅).

(** The examples need a function for [math.tanh]: the identity, which is odd
    and maps 0 to 0 (and is what tanh is to first order). *)
Definition linear_tanh (x : float) : float := x.

(** The examples need a function for the builtin [float]: one that knows two
    strings and raises [ValueError] on every other. *)
Definition float_of_known (s : string) : Py.Result float :=
  if String.eqb s "19.3" then Py.Return 19.3%float
  else if String.eqb s "49" then Py.Return 49%float
  else Py.Raise Py.ValueError.

(** The host's states with the living room's two entities, and a host with
    no listener and no registry yet. *)
Definition living_room_states : gmap string string :=
  <["climate.living_room" := "heat"]>
    (<["sensor.living_room_temperature" := "19.3"]> ∅).

Definition fresh_hass : Hass :=
  {| hass_data := None; hass_listeners := ∅ |}.

(** The living room with setpoints the wrong way round. *)
Definition inverted_options : OptionsInput :=
  {| opt_tolerance := None;
     opt_base_shift := None;
     opt_high_setpoint := Some 5.0%float;
     opt_low_setpoint := Some 35.0%float;
     opt_max_price_shift := None;
     opt_price_steepness := None |}.

(** A host whose first refresh, platform forward and platform unload all
    succeed. *)
Definition first_refresh_19_3 : AdaptiveThermostatCoordinator -> Py.Result Data :=
  λ _, Py.Return (published (Some 19.3%float) None).
Definition forward_returns : Hass -> option Py.Exn := λ _, None.
Definition unload_returns_true : Hass -> Py.Result bool := λ _, Py.Return true.

(** A host with the priced living room registered, its listener tracked. *)
Definition priced_hass : Hass :=
  snd (async_setup_entry first_refresh_19_3 forward_returns
         "entry_1" living_room_priced fresh_hass).

(** ** Facts of binary64 arithmetic *)

Module FloatFacts.

Lemma compare_cont_Eq_antisym m1 m2 :
  Pos.compare_cont Eq m2 m1 = CompOpp (Pos.compare_cont Eq m1 m2).
Proof. apply (Pos.compare_antisym m1 m2). Qed.

Lemma SFcompare_antisym a b :
  SFcompare b a = option_map CompOpp (SFcompare a b).
Proof.
  destruct a as [sa|sa| |sa ma ea], b as [sb|sb| |sb mb eb]; simpl;
    try done; try (by destruct sa); try (by destruct sb); try (by destruct sa, sb).
  destruct sa, sb; try done; f_equal.
  all: rewrite (Z.compare_antisym ea eb).
  all: destruct (ea ?= eb)%Z; simpl; try done.
  all: rewrite (compare_cont_Eq_antisym ma mb); by destruct (Pos.compare_cont Eq ma mb).
Qed.

(** [x <= y] excludes [y < x]. *)
Lemma leb_true_ltb_false (x y : float) :
  (x <=? y)%float = true -> (y <? x)%float = false.
Proof.
  rewrite leb_spec, ltb_spec. unfold SFleb, SFltb.
  rewrite (SFcompare_antisym (Prim2SF x) (Prim2SF y)).
  by destruct (SFcompare (Prim2SF x) (Prim2SF y)) as [[]|].
Qed.














End FloatFacts.

(** ** Facts of the exact shift function *)

Module ExactFacts.

Import Exact.
Local Open Scope R_scope.












End ExactFacts.

(** ** Unfolding lemmas *)

Lemma with_is_heating_same self :
  with_is_heating (_is_heating self) self = self.
Proof. by destruct self. Qed.

(** Reading a field of an updated world. *)
Lemma thermostat_with_effect e w : thermostat (with_effect e w) = thermostat w.
Proof. done. Qed.
Lemma thermostat_with_thermostat f w :
  thermostat (with_thermostat f w) = f (thermostat w).
Proof. done. Qed.
Lemma thermostat_with_data d w : thermostat (with_data d w) = thermostat w.
Proof. done. Qed.
Lemma trace_with_effect e w : trace (with_effect e w) = trace w ++ [e].
Proof. done. Qed.
Lemma trace_with_thermostat f w : trace (with_thermostat f w) = trace w.
Proof. done. Qed.
Lemma trace_with_data d w : trace (with_data d w) = trace w.
Proof. done. Qed.
Lemma coordinator_with_effect e w : coordinator (with_effect e w) = coordinator w.
Proof. done. Qed.
Lemma coordinator_with_thermostat f w :
  coordinator (with_thermostat f w) = coordinator w.
Proof. done. Qed.

Create Rewrite HintDb world.
#[global] Hint Rewrite thermostat_with_effect thermostat_with_thermostat
  thermostat_with_data trace_with_effect trace_with_thermostat trace_with_data
  coordinator_with_effect coordinator_with_thermostat : world.

Lemma drop_trace_app (l es : list Effect.t) : drop (length l) (l ++ es) = es.
Proof. by rewrite drop_app_length. Qed.

Lemma eqb_false_neq (a b : bool) : negb (Bool.eqb a b) = false -> a = b.
Proof. by destruct a, b. Qed.

Section Unfold.

Variable math_tanh : float -> float.
Variable services_async_call :
  World -> string -> string -> string -> float -> option Py.Exn.

Local Abbreviation set_real := (_async_set_real_thermostat services_async_call).
Local Abbreviation control := (_async_control_heating math_tanh services_async_call).
Local Abbreviation total_shift := (_calculate_total_shift math_tanh).

(** What [_async_set_real_thermostat] does, by the outcome of the call. *)
Lemma set_real_thermostat_unfold t w :
  set_real t w =
    let id := _real_thermostat_id (thermostat w) in
    let w1 := with_effect (Effect.service_call "climate" "set_temperature" id t) w in
    match services_async_call w "climate" "set_temperature" id t with
    | None => (Py.Return tt, with_effect (Effect.log Effect.DEBUG Effect.Set_to) w1)
    | Some e =>
        if Py.isinstance_Exception e
        then (Py.Return tt,
              with_effect (Effect.log Effect.ERROR (Effect.Failed_to_set e)) w1)
        else (Py.Raise e, w1)
    end.
Proof.
  unfold _async_set_real_thermostat, try_except, hass_services_async_call; simpl.
  unfold mbind, Coro_bind, gets; simpl.
  destruct (services_async_call w _ _ _ t) as [e|]; simpl; [|done].
  by destruct (Py.isinstance_Exception e).
Qed.

Lemma set_real_thermostat_thermostat t w :
  thermostat (run (set_real t) w) = thermostat w.
Proof.
  unfold run. rewrite set_real_thermostat_unfold; simpl.
  destruct (services_async_call w _ _ _ t) as [e|]; [|done].
  by destruct (Py.isinstance_Exception e).
Qed.

(** [_async_control_heating] in HEAT mode with a reading. *)
Lemma control_heating_unfold w t :
  HVACMode.eqb (_hvac_mode (thermostat w)) HVACMode.OFF = false ->
  current_temperature w = Some t ->
  control w =
    let self := thermostat w in
    let sh := should_heat t (_target_temperature self) (_tolerance self)
                (total_shift w) (_is_heating self) in
    if negb (Bool.eqb sh (_is_heating self)) then
      (set_real (if sh then _high_setpoint self else _low_setpoint self);;
       _LOGGER Effect.INFO (Effect.Heating_state_changed sh))
        (with_thermostat (with_is_heating sh) w)
    else (Py.Return tt, w).
Proof.
  intros Hmode Ht. unfold _async_control_heating.
  unfold mbind at 1, Coro_bind at 1; simpl. rewrite Hmode.
  unfold mbind at 1, Coro_bind at 1; simpl. rewrite Ht.
  unfold mbind at 1, Coro_bind at 1; simpl.
  destruct (negb _); [|done].
  by unfold mbind at 1, Coro_bind at 1; simpl.
Qed.

(** The entity after [_async_control_heating] in HEAT mode with a reading:
    only the heating bit may differ, and it is the decision. *)
Lemma control_heating_thermostat w t :
  HVACMode.eqb (_hvac_mode (thermostat w)) HVACMode.OFF = false ->
  current_temperature w = Some t ->
  thermostat (run control w) =
    with_is_heating
      (should_heat t (_target_temperature (thermostat w)) (_tolerance (thermostat w))
         (total_shift w) (_is_heating (thermostat w)))
      (thermostat w).
Proof.
  intros Hmode Ht. unfold run. rewrite (control_heating_unfold w t Hmode Ht); simpl.
  destruct (negb _) eqn:Hne.
  - unfold mbind, Coro_bind.
    pose proof (set_real_thermostat_thermostat
      (if should_heat t (_target_temperature (thermostat w)) (_tolerance (thermostat w))
            (total_shift w) (_is_heating (thermostat w))
       then _high_setpoint (thermostat w) else _low_setpoint (thermostat w))
      (with_thermostat (with_is_heating
         (should_heat t (_target_temperature (thermostat w)) (_tolerance (thermostat w))
            (total_shift w) (_is_heating (thermostat w)))) w)) as Hth.
    unfold run in Hth.
    destruct (set_real _ _) as [[[]|e] w'] eqn:Hs; simpl in *; done.
  - apply eqb_false_neq in Hne. rewrite Hne. by rewrite with_is_heating_same.
Qed.

End Unfold.

(** ** The hysteresis controller *)

Section Controller.

Variable math_tanh : float -> float.
Variable services_async_call :
  World -> string -> string -> string -> float -> option Py.Exn.

Local Abbreviation set_real := (_async_set_real_thermostat services_async_call).
Local Abbreviation control := (_async_control_heating math_tanh services_async_call).
Local Abbreviation total_shift := (_calculate_total_shift math_tanh).

Lemma HEAT_is_not_OFF self :
  _hvac_mode self = HVACMode.HEAT ->
  HVACMode.eqb (_hvac_mode self) HVACMode.OFF = false.
Proof. by intros ->. Qed.

(** The effects of [_async_control_heating] in HEAT mode with a reading. *)
Lemma control_heating_effects w t :
  HVACMode.eqb (_hvac_mode (thermostat w)) HVACMode.OFF = false ->
  current_temperature w = Some t ->
  let self := thermostat w in
  let sh := should_heat t (_target_temperature self) (_tolerance self)
              (total_shift w) (_is_heating self) in
  let setpoint := if sh then _high_setpoint self else _low_setpoint self in
  let call := Effect.service_call "climate" "set_temperature"
                (_real_thermostat_id self) setpoint in
  effects control w =
    if negb (Bool.eqb sh (_is_heating self)) then
      match services_async_call (with_thermostat (with_is_heating sh) w)
              "climate" "set_temperature" (_real_thermostat_id self) setpoint with
      | None => [call; Effect.log Effect.DEBUG Effect.Set_to;
                 Effect.log Effect.INFO (Effect.Heating_state_changed sh)]
      | Some e =>
          if Py.isinstance_Exception e
          then [call; Effect.log Effect.ERROR (Effect.Failed_to_set e);
                Effect.log Effect.INFO (Effect.Heating_state_changed sh)]
          else [call]
      end
    else [].
Proof.
  intros Hmode Ht; simpl. unfold effects, run.
  rewrite (control_heating_unfold _ _ w t Hmode Ht); simpl.
  destruct (negb _); simpl.
  - unfold mbind, Coro_bind. rewrite set_real_thermostat_unfold; simpl.
    destruct (services_async_call _ _ _ _ _) as [e|]; simpl;
      [destruct (Py.isinstance_Exception e); simpl|];
      rewrite <- ?app_assoc; rewrite drop_trace_app; done.
  - by rewrite drop_all.
Qed.

Lemma control_heating_commanded w t :
  HVACMode.eqb (_hvac_mode (thermostat w)) HVACMode.OFF = false ->
  current_temperature w = Some t ->
  let self := thermostat w in
  let sh := should_heat t (_target_temperature self) (_tolerance self)
              (total_shift w) (_is_heating self) in
  commanded (effects control w) =
    if negb (Bool.eqb sh (_is_heating self))
    then [if sh then _high_setpoint self else _low_setpoint self]
    else [].
Proof.
  intros Hmode Ht; simpl. rewrite (control_heating_effects w t Hmode Ht); simpl.
  destruct (negb _); [|done].
  destruct (services_async_call _ _ _ _ _) as [e|]; [|done].
  by destruct (Py.isinstance_Exception e).
Qed.

(** C1.  In HEAT mode with a reading [t], the heating bit after the
    evaluation is: true when [t] is below the lower threshold
    [target - tolerance + total_shift]; false when it is not below the lower
    threshold and is above the upper threshold
    [target + tolerance + total_shift]; and the bit it was before the
    evaluation otherwise, in particular for every [t] of the closed
    dead-band [lower <= t <= upper]. *)
Theorem hysteresis_decision w t :
  _hvac_mode (thermostat w) = HVACMode.HEAT ->
  current_temperature w = Some t ->
  let self := thermostat w in
  let shift := total_shift w in
  let after := thermostat (run control w) in
  ((t <? lower self shift)%float = true -> _is_heating after = true) /\
  ((t <? lower self shift)%float = false -> (t >? upper self shift)%float = true ->
     _is_heating after = false) /\
  ((t <? lower self shift)%float = false -> (t >? upper self shift)%float = false ->
     _is_heating after = _is_heating self) /\
  ((lower self shift <=? t)%float = true -> (t <=? upper self shift)%float = true ->
     _is_heating after = _is_heating self).
Proof.
  intros Hmode Ht; simpl.
  rewrite (control_heating_thermostat _ _ w t (HEAT_is_not_OFF _ Hmode) Ht); simpl.
  unfold should_heat, lower, upper, Py.gtb.
  repeat split.
  - by intros ->.
  - by intros -> ->.
  - by intros -> ->.
  - intros Hlo%FloatFacts.leb_true_ltb_false Hhi%FloatFacts.leb_true_ltb_false.
    by rewrite Hlo, Hhi.
Qed.

(** C2.  In HEAT mode with a reading, the actuator is called exactly when the
    decision differs from the heating bit before the evaluation, and then
    once: the service [climate.set_temperature] on the real thermostat with
    the high setpoint when the decision is to heat and the low setpoint
    when it is not.  When the decision repeats the bit, no call is made. *)
Theorem edge_triggered_actuation w t :
  _hvac_mode (thermostat w) = HVACMode.HEAT ->
  current_temperature w = Some t ->
  let self := thermostat w in
  let sh := should_heat t (_target_temperature self) (_tolerance self)
              (total_shift w) (_is_heating self) in
  let setpoint := if sh then _high_setpoint self else _low_setpoint self in
  (sh <> _is_heating self ->
     List.filter Effect.is_service_call (effects control w) =
       [Effect.service_call "climate" "set_temperature" (_real_thermostat_id self) setpoint]
     /\ commanded (effects control w) = [setpoint]) /\
  (sh = _is_heating self -> effects control w = []) /\
  (commanded (effects control w) <> [] <-> sh <> _is_heating self).
Proof.
  intros Hmode Ht; simpl.
  pose proof (control_heating_effects w t (HEAT_is_not_OFF _ Hmode) Ht) as He.
  pose proof (control_heating_commanded w t (HEAT_is_not_OFF _ Hmode) Ht) as Hc.
  simpl in He, Hc. rewrite Hc, He. clear He Hc.
  destruct (should_heat _ _ _ _ _) eqn:Hsh, (_is_heating (thermostat w)) eqn:Hold;
    simpl; (split; [|split; [|split]]); try done.
  all: intros _; split; [|done].
  all: destruct (services_async_call _ _ _ _ _) as [e|]; [|done].
  all: by destruct (Py.isinstance_Exception e).
Qed.

(** C3.  In HEAT mode without a reading, the evaluation returns without a
    decision: the entity (heating bit, mode and target temperature among its
    fields) is what it was, no service call is made, and the only effect is
    the warning. *)
Theorem no_reading_no_decision w :
  _hvac_mode (thermostat w) = HVACMode.HEAT ->
  current_temperature w = None ->
  outcome control w = Py.Return tt /\
  thermostat (run control w) = thermostat w /\
  commanded (effects control w) = [] /\
  effects control w =
    [Effect.log Effect.WARNING Effect.Temperature_sensor_unavailable].
Proof.
  intros Hmode Ht.
  unfold outcome, effects, run, _async_control_heating.
  unfold mbind, Coro_bind; simpl. rewrite Hmode; simpl. rewrite Ht; simpl.
  by rewrite drop_trace_app.
Qed.

Lemma control_heating_no_reading w :
  HVACMode.eqb (_hvac_mode (thermostat w)) HVACMode.OFF = false ->
  current_temperature w = None ->
  control w =
    (Py.Return tt,
     with_effect (Effect.log Effect.WARNING Effect.Temperature_sensor_unavailable) w).
Proof.
  intros Hmode Ht. unfold _async_control_heating, mbind, Coro_bind; simpl.
  rewrite Hmode; simpl. by rewrite Ht.
Qed.

(** The decision is stable: taken again from its own result, it is the
    same. *)
Lemma should_heat_idempotent t target tolerance shift b :
  should_heat t target tolerance shift (should_heat t target tolerance shift b) =
    should_heat t target tolerance shift b.
Proof.
  unfold should_heat.
  destruct (t <? target - tolerance + shift)%float; [done|].
  by destruct (t >? target + tolerance + shift)%float.
Qed.

(** The heating bit plays no part in the reading or in the shift. *)
Lemma current_temperature_with_is_heating b w :
  current_temperature (with_thermostat (with_is_heating b) w) = current_temperature w.
Proof. done. Qed.

Lemma total_shift_with_is_heating b w :
  total_shift (with_thermostat (with_is_heating b) w) = total_shift w.
Proof. done. Qed.

(** The world after an evaluation: the heating bit and the trace, and
    nothing else, may differ. *)
Lemma control_heating_world w :
  exists b es,
    run control w =
      {| hass_states := hass_states w;
         coordinator := coordinator w;
         thermostat := with_is_heating b (thermostat w);
         trace := trace w ++ es |} /\
    (HVACMode.eqb (_hvac_mode (thermostat w)) HVACMode.OFF = false ->
     forall t, current_temperature w = Some t ->
       b = should_heat t (_target_temperature (thermostat w)) (_tolerance (thermostat w))
             (total_shift w) (_is_heating (thermostat w))).
Proof.
  destruct (HVACMode.eqb (_hvac_mode (thermostat w)) HVACMode.OFF) eqn:Hmode.
  - exists (_is_heating (thermostat w)), [].
    split; [|done]. unfold run, _async_control_heating, mbind, Coro_bind; simpl.
    rewrite Hmode; simpl. rewrite with_is_heating_same, app_nil_r. by destruct w.
  - destruct (current_temperature w) as [t|] eqn:Ht.
    + unfold run. rewrite (control_heating_unfold _ _ w t Hmode Ht); simpl.
      destruct (negb _) eqn:Hne.
      * unfold mbind, Coro_bind. rewrite set_real_thermostat_unfold; simpl.
        destruct (services_async_call _ _ _ _ _) as [e|]; simpl;
          [destruct (Py.isinstance_Exception e); simpl|].
        all: unfold with_effect, with_thermostat; simpl; rewrite <- ?app_assoc.
        all: eexists _, _; split; [reflexivity|].
        all: by intros _ t' [= <-].
      * apply eqb_false_neq in Hne.
        exists (_is_heating (thermostat w)), [].
        split; [|by intros _ t' [= <-]]; simpl.
        rewrite with_is_heating_same, app_nil_r. by destruct w.
    + exists (_is_heating (thermostat w)),
        [Effect.log Effect.WARNING Effect.Temperature_sensor_unavailable].
      split; [|done]. unfold run, _async_control_heating, mbind, Coro_bind; simpl.
      rewrite Hmode; simpl. rewrite Ht; simpl.
      rewrite with_is_heating_same. by destruct w.
Qed.

(** An evaluation run again on the world it left, with the same data
    published, calls the actuator no more and leaves the entity as it is:
    the heating bit is assigned before the call is awaited, so the
    transition is commanded once. *)
Lemma evaluation_idempotent w :
  let w1 := run control w in
  commanded (effects control w1) = [] /\
  thermostat (run control w1) = thermostat w1.
Proof.
  simpl. destruct (control_heating_world w) as (b & es & Hrun & Hb).
  rewrite Hrun. set (w1 := {| hass_states := _ |}).
  destruct (HVACMode.eqb (_hvac_mode (thermostat w)) HVACMode.OFF) eqn:Hmode.
  - assert (control w1 = (Py.Return tt, w1)) as Hoff.
    { unfold _async_control_heating, mbind, Coro_bind; simpl. by rewrite Hmode. }
    unfold effects, run. rewrite Hoff; simpl. by rewrite drop_all.
  - destruct (current_temperature w) as [t|] eqn:Ht.
    + assert (current_temperature w1 = Some t) as Ht1 by done.
      assert (HVACMode.eqb (_hvac_mode (thermostat w1)) HVACMode.OFF = false)
        as Hmode1 by done.
      rewrite (control_heating_commanded w1 t Hmode1 Ht1).
      rewrite (control_heating_thermostat _ _ w1 t Hmode1 Ht1).
      change (total_shift w1) with (total_shift w). simpl.
      rewrite (Hb eq_refl t eq_refl), !should_heat_idempotent.
      rewrite Bool.eqb_reflx; simpl. split; [done|].
      by destruct (thermostat w).
    + assert (current_temperature w1 = None) as Ht1 by done.
      assert (HVACMode.eqb (_hvac_mode (thermostat w1)) HVACMode.OFF = false)
        as Hmode1 by done.
      unfold effects, run. rewrite (control_heating_no_reading w1 Hmode1 Ht1).
      cbn [snd]. autorewrite with world. by rewrite drop_trace_app.
Qed.

End Controller.

(** ** The shift aggregator *)

Lemma dict_get_Some_nonempty {V} (d : gmap string (option V)) k v :
  Py.dict_get d k = Some v -> Py.bool_dict (Some d) = true.
Proof.
  unfold Py.dict_get, Py.bool_dict. intros Hget.
  destruct (d !! k) as [ov|] eqn:Hk; [|done].
  apply negb_true_iff, Nat.eqb_neq. intros Hsize.
  apply map_size_empty_iff in Hsize. subst d.
  by rewrite lookup_empty in Hk.
Qed.

Section Aggregator.

Variable math_tanh : float -> float.

(** C4.  The aggregated shift is the base shift plus the price shift of the
    reading when a price source is configured and the reading is present,
    and the base shift alone in every other case; [_calculate_total_shift]
    is a total function of the entity and the published data, so there is
    no combination on which it fails. *)
Theorem total_shift_aggregation w :
  let self := thermostat w in
  _calculate_total_shift math_tanh w =
    match price_source_configured w, price_reading w with
    | true, Some p =>
        (_base_shift self +
         price_based_shift_percent math_tanh p
           (_max_price_shift self) (_price_steepness self))%float
    | _, _ => _base_shift self
    end.
Proof.
  unfold _calculate_total_shift, price_source_configured, price_reading; simpl.
  destruct (Py.bool_str _); simpl; [|done].
  destruct (data (coordinator w)) as [d|]; [|done].
  change (Some d ≫= _) with (Py.dict_get d "price_diff_percent").
  destruct (Py.dict_get d "price_diff_percent") as [p|] eqn:Hp.
  - by rewrite (dict_get_Some_nonempty d _ p Hp).
  - by destruct (Py.bool_dict _).
Qed.

End Aggregator.

(** ** Actuator failures *)

Section Failure.

Variable math_tanh : float -> float.
Variable services_async_call :
  World -> string -> string -> string -> float -> option Py.Exn.

Local Abbreviation control := (_async_control_heating math_tanh services_async_call).
Local Abbreviation total_shift := (_calculate_total_shift math_tanh).

Lemma control_heating_outcome w t :
  HVACMode.eqb (_hvac_mode (thermostat w)) HVACMode.OFF = false ->
  current_temperature w = Some t ->
  let self := thermostat w in
  let sh := should_heat t (_target_temperature self) (_tolerance self)
              (total_shift w) (_is_heating self) in
  let setpoint := if sh then _high_setpoint self else _low_setpoint self in
  outcome control w =
    if negb (Bool.eqb sh (_is_heating self)) then
      match services_async_call (with_thermostat (with_is_heating sh) w)
              "climate" "set_temperature" (_real_thermostat_id self) setpoint with
      | Some e => if Py.isinstance_Exception e then Py.Return tt else Py.Raise e
      | None => Py.Return tt
      end
    else Py.Return tt.
Proof.
  intros Hmode Ht; simpl. unfold outcome.
  rewrite (control_heating_unfold _ _ w t Hmode Ht); simpl.
  destruct (negb _); [|done].
  unfold mbind, Coro_bind. rewrite set_real_thermostat_unfold; simpl.
  destruct (services_async_call _ _ _ _ _) as [e|]; [|done].
  by destruct (Py.isinstance_Exception e).
Qed.

(** C6.  When an evaluation calls the actuator and the call fails (it raises
    an exception of class [Exception]), the evaluation still returns
    normally, the failure is logged as an error, and the heating bit is the
    decision: the entity is the one a run with a call that succeeds leaves. *)
Theorem actuator_failure_contained w t e :
  _hvac_mode (thermostat w) = HVACMode.HEAT ->
  current_temperature w = Some t ->
  let self := thermostat w in
  let sh := should_heat t (_target_temperature self) (_tolerance self)
              (total_shift w) (_is_heating self) in
  let setpoint := if sh then _high_setpoint self else _low_setpoint self in
  sh <> _is_heating self ->
  services_async_call (with_thermostat (with_is_heating sh) w)
    "climate" "set_temperature" (_real_thermostat_id self) setpoint = Some e ->
  Py.isinstance_Exception e = true ->
  outcome control w = Py.Return tt /\
  _is_heating (thermostat (run control w)) = sh /\
  thermostat (run control w) =
    thermostat (run (_async_control_heating math_tanh reliable) w) /\
  effects control w =
    [Effect.service_call "climate" "set_temperature" (_real_thermostat_id self) setpoint;
     Effect.log Effect.ERROR (Effect.Failed_to_set e);
     Effect.log Effect.INFO (Effect.Heating_state_changed sh)].
Proof.
  intros Hmode Ht; simpl. intros Hne Hcall He.
  pose proof (HEAT_is_not_OFF _ Hmode) as Hoff.
  rewrite (control_heating_outcome w t Hoff Ht); simpl.
  rewrite (control_heating_effects _ _ w t Hoff Ht); simpl.
  rewrite !(control_heating_thermostat _ _ w t Hoff Ht); simpl.
  rewrite Hcall, He.
  assert (negb (Bool.eqb
            (should_heat t (_target_temperature (thermostat w)) (_tolerance (thermostat w))
               (total_shift w) (_is_heating (thermostat w)))
            (_is_heating (thermostat w))) = true) as ->.
  { destruct (should_heat _ _ _ _ _), (_is_heating (thermostat w)); done. }
  done.
Qed.

End Failure.

(** ** The life of an entity *)

Section Life.

Variable math_tanh : float -> float.
Variable services_async_call :
  World -> string -> string -> string -> float -> option Py.Exn.

Local Abbreviation set_real := (_async_set_real_thermostat services_async_call).
Local Abbreviation control := (_async_control_heating math_tanh services_async_call).
Local Abbreviation set_temperature := (async_set_temperature math_tanh services_async_call).
Local Abbreviation set_hvac_mode := (async_set_hvac_mode math_tanh services_async_call).

(** The actuator call fails or succeeds, and is never cancelled. *)
Hypothesis not_cancelled : forall w domain service entity_id t e,
  services_async_call w domain service entity_id t = Some e ->
  Py.isinstance_Exception e = true.

Lemma control_heating_off w :
  _hvac_mode (thermostat w) = HVACMode.OFF -> control w = (Py.Return tt, w).
Proof.
  intros Hmode. unfold _async_control_heating, mbind, Coro_bind; simpl.
  by rewrite Hmode.
Qed.

Lemma control_heating_returns w : outcome control w = Py.Return tt.
Proof.
  destruct (HVACMode.eqb (_hvac_mode (thermostat w)) HVACMode.OFF) eqn:Hmode.
  - unfold outcome, _async_control_heating, mbind, Coro_bind; simpl. by rewrite Hmode.
  - destruct (current_temperature w) as [t|] eqn:Ht.
    + rewrite (control_heating_outcome _ _ w t Hmode Ht); simpl.
      destruct (negb _); [|done].
      destruct (services_async_call _ _ _ _ _) as [e|] eqn:Hcall; [|done].
      by rewrite (not_cancelled _ _ _ _ _ _ Hcall).
    + unfold outcome, _async_control_heating, mbind, Coro_bind; simpl.
      rewrite Hmode; simpl. by rewrite Ht.
Qed.

(** An evaluation changes no field of the entity but the heating bit, and
    changes nothing at all in mode OFF. *)
Lemma control_heating_frame w :
  exists b, thermostat (run control w) = with_is_heating b (thermostat w).
Proof.
  destruct (HVACMode.eqb (_hvac_mode (thermostat w)) HVACMode.OFF) eqn:Hmode.
  - exists (_is_heating (thermostat w)). rewrite with_is_heating_same.
    unfold run, _async_control_heating, mbind, Coro_bind; simpl. by rewrite Hmode.
  - destruct (current_temperature w) as [t|] eqn:Ht.
    + eexists. apply (control_heating_thermostat _ _ w t Hmode Ht).
    + exists (_is_heating (thermostat w)). rewrite with_is_heating_same.
      unfold run, _async_control_heating, mbind, Coro_bind; simpl.
      rewrite Hmode; simpl. by rewrite Ht.
Qed.

Lemma commanded_snoc_other es e :
  Effect.is_service_call e = false -> commanded (es ++ [e]) = commanded es.
Proof.
  intros He. unfold commanded. rewrite omap_app; simpl.
  destruct e; try done; by rewrite app_nil_r.
Qed.

Lemma last_commanded_app es es' t :
  commanded es' = [t] -> last (commanded (es ++ es')) = Some t.
Proof.
  intros H. unfold commanded in *. rewrite omap_app, H. apply last_snoc.
Qed.

(** A run of the actuator adapter: it returns, leaves the entity and the
    coordinator alone, and commands exactly the setpoint it was given. *)
Lemma set_real_thermostat_run t w :
  exists w2 es,
    set_real t w = (Py.Return tt, w2) /\
    thermostat w2 = thermostat w /\
    coordinator w2 = coordinator w /\
    trace w2 = trace w ++ es /\
    commanded es = [t] /\
    List.filter Effect.is_service_call es =
      [Effect.service_call "climate" "set_temperature"
         (_real_thermostat_id (thermostat w)) t].
Proof.
  rewrite set_real_thermostat_unfold; simpl.
  destruct (services_async_call w _ _ _ t) as [e|] eqn:Hcall; simpl.
  - rewrite (not_cancelled _ _ _ _ _ _ Hcall); simpl.
    eexists _, [_; _]. repeat split; simpl; [by rewrite <- app_assoc|done..].
  - eexists _, [_; _]. repeat split; simpl; [by rewrite <- app_assoc|done..].
Qed.

(** A run of the evaluation: it returns, and touches the heating bit only. *)
Lemma control_heating_run w :
  exists w2 b,
    control w = (Py.Return tt, w2) /\
    thermostat w2 = with_is_heating b (thermostat w) /\
    coordinator w2 = coordinator w /\
    (_hvac_mode (thermostat w) = HVACMode.OFF -> w2 = w).
Proof.
  pose proof (control_heating_returns w) as Hout.
  destruct (control_heating_frame w) as [b Hb].
  unfold outcome, run in *. destruct (control w) as [r w2] eqn:Hrun; simpl in *.
  subst r. exists w2, b. repeat split; [done| |].
  - revert Hrun. unfold _async_control_heating, mbind, Coro_bind; simpl.
    destruct (HVACMode.eqb _ _); [by intros [= <-]|].
    destruct (current_temperature w); simpl; [|by intros [= <-]].
    destruct (negb _); [|by intros [= <-]].
    unfold mbind, Coro_bind, modify; simpl.
    match goal with |- context [set_real ?t ?w1] =>
      destruct (set_real_thermostat_run t w1) as (w3 & es & -> & _ & Hco & _) end.
    simpl. by intros [= <-].
  - intros Hoff. rewrite (control_heating_off w Hoff) in Hrun. by injection Hrun.
Qed.

Lemma set_temperature_unfold kwargs w t :
  kwargs !! "temperature" = Some t ->
  set_temperature kwargs w =
    (control;; async_write_ha_state)
      (with_thermostat (with_target_temperature t) w).
Proof. intros H. unfold async_set_temperature. by rewrite H. Qed.

Lemma set_hvac_mode_HEAT_unfold w :
  HVACMode.mem HVACMode.HEAT (_attr_hvac_modes (thermostat w)) = true ->
  set_hvac_mode HVACMode.HEAT w =
    (control;; async_write_ha_state)
      (with_thermostat (with_hvac_mode HVACMode.HEAT) w).
Proof.
  intros H. unfold async_set_hvac_mode.
  unfold mbind at 1, Coro_bind at 1; simpl. rewrite H; simpl.
  unfold mbind at 1, Coro_bind at 1; simpl. done.
Qed.

Lemma set_hvac_mode_OFF_unfold w :
  HVACMode.mem HVACMode.OFF (_attr_hvac_modes (thermostat w)) = true ->
  set_hvac_mode HVACMode.OFF w =
    match set_real (_low_setpoint (thermostat w))
            (with_thermostat (with_hvac_mode HVACMode.OFF) w) with
    | (Py.Return _, w2) =>
        (Py.Return tt,
         with_effect Effect.write_ha_state (with_thermostat (with_is_heating false) w2))
    | (Py.Raise e, w2) => (Py.Raise e, w2)
    end.
Proof.
  intros H. unfold async_set_hvac_mode.
  unfold mbind at 1, Coro_bind at 1; simpl. rewrite H; simpl.
  unfold mbind, Coro_bind, modify; simpl.
  by destruct (set_real _ _) as [[[]|e] w2].
Qed.

Lemma set_hvac_mode_other m w :
  HVACMode.mem m (_attr_hvac_modes (thermostat w)) = false ->
  set_hvac_mode m w = (Py.Return tt, w).
Proof.
  intros H. unfold async_set_hvac_mode, mbind, Coro_bind; simpl. by rewrite H.
Qed.

Lemma invariant_setup entry states : invariant entry (setup entry states).
Proof. split; simpl; auto. intros [=]. Qed.

Lemma invariant_step entry w i :
  invariant entry w -> invariant entry (step math_tanh services_async_call w i).
Proof.
  intros [Hm Hi Hl Hh Hmode Hoffi].
  destruct i as [d| |kwargs|m]; simpl.
  - (* Publish *) by split.
  - (* Evaluate *)
    destruct (control_heating_run w) as (w2 & b & Hrun & Hth & _ & Hoff).
    unfold run. rewrite Hrun; simpl.
    split; try (rewrite Hth; simpl; assumption).
    intros Hmo. rewrite Hth in Hmo; simpl in Hmo.
    rewrite (Hoff Hmo). by apply Hoffi.
  - (* Set_temperature *)
    destruct (kwargs !! "temperature") as [t|] eqn:Hk.
    + unfold run. rewrite (set_temperature_unfold kwargs w t Hk).
      unfold mbind, Coro_bind.
      destruct (control_heating_run (with_thermostat (with_target_temperature t) w))
        as (w2 & b & Hrun & Hth & _ & Hoff).
      rewrite Hrun. cbn [snd async_write_ha_state emit modify].
      autorewrite with world in Hth, Hoff.
      split; autorewrite with world; try (rewrite Hth; simpl; assumption).
      intros Hmo. rewrite Hth in Hmo; simpl in Hmo.
      rewrite (Hoff Hmo). autorewrite with world; simpl.
      rewrite commanded_snoc_other by done. by apply Hoffi.
    + unfold run, async_set_temperature. by rewrite Hk.
  - (* Set_hvac_mode *)
    destruct (HVACMode.mem m (_attr_hvac_modes (thermostat w))) eqn:Hmem.
    + rewrite Hm in Hmem. destruct m; try discriminate Hmem.
      * unfold run. rewrite set_hvac_mode_OFF_unfold by (by rewrite Hm).
        destruct (set_real_thermostat_run (_low_setpoint (thermostat w))
                    (with_thermostat (with_hvac_mode HVACMode.OFF) w))
          as (w2 & es & Hrun & Hth & _ & Htr & Hcmd & _).
        rewrite Hrun. cbn [snd].
        autorewrite with world in Hth, Htr.
        split; autorewrite with world; try (rewrite Hth; simpl; auto; fail).
        intros _. split; [done|].
        rewrite commanded_snoc_other by done.
        rewrite Htr. rewrite <- Hl. by apply last_commanded_app.
      * unfold run. rewrite set_hvac_mode_HEAT_unfold by (by rewrite Hm).
        unfold mbind, Coro_bind.
        destruct (control_heating_run (with_thermostat (with_hvac_mode HVACMode.HEAT) w))
          as (w2 & b & Hrun & Hth & _ & _).
        rewrite Hrun. cbn [snd async_write_ha_state emit modify].
        autorewrite with world in Hth.
        split; autorewrite with world; try (rewrite Hth; simpl; auto; fail).
        rewrite Hth; simpl. intros [=].
    + unfold run. by rewrite (set_hvac_mode_other m w Hmem).
Qed.

Lemma invariant_history entry states inputs :
  invariant entry (history math_tanh services_async_call entry states inputs).
Proof.
  unfold history. generalize (invariant_setup entry states).
  generalize (setup entry states) as w.
  induction inputs as [|i inputs IH]; intros w Hw; simpl; [done|].
  apply IH. by apply invariant_step.
Qed.


End Life.

(** ** The target-temperature command *)

Section Target.

Variable math_tanh : float -> float.
Variable services_async_call :
  World -> string -> string -> string -> float -> option Py.Exn.

Local Abbreviation control := (_async_control_heating math_tanh services_async_call).
Local Abbreviation set_temperature := (async_set_temperature math_tanh services_async_call).

(** The entity after the command: the target is the number passed, as it was
    passed, and no other field but the heating bit may differ. *)
Lemma set_temperature_thermostat kwargs w t :
  kwargs !! "temperature" = Some t ->
  exists b,
    thermostat (run (set_temperature kwargs) w) =
      with_is_heating b (with_target_temperature t (thermostat w)).
Proof.
  intros Hk. unfold run. rewrite (set_temperature_unfold _ _ kwargs w t Hk).
  destruct (control_heating_frame math_tanh services_async_call
              (with_thermostat (with_target_temperature t) w)) as [b Hb].
  exists b. unfold run in Hb. unfold mbind, Coro_bind.
  destruct (control _) as [[[]|e] w2]; simpl in *; by rewrite Hb.
Qed.

(** C8, as the code has it.  The command stores the number it is given as the
    target temperature, unchanged: it neither clamps it nor checks it against
    the range the entity declares, which stays 5.0 to 35.0 in steps of 0.5.
    It then runs the evaluation at once and writes the state.  With no
    temperature among its arguments it does nothing. *)
Theorem set_temperature_stores_input kwargs w :
  match kwargs !! "temperature" with
  | Some t =>
      set_temperature kwargs w =
        (control;; async_write_ha_state)
          (with_thermostat (with_target_temperature t) w) /\
      let after := thermostat (run (set_temperature kwargs) w) in
      _target_temperature after = t /\
      _attr_min_temp after = _attr_min_temp (thermostat w) /\
      _attr_max_temp after = _attr_max_temp (thermostat w) /\
      _attr_target_temperature_step after =
        _attr_target_temperature_step (thermostat w)
  | None => set_temperature kwargs w = (Py.Return tt, w)
  end.
Proof.
  destruct (kwargs !! "temperature") as [t|] eqn:Hk.
  - split; [by apply set_temperature_unfold|].
    destruct (set_temperature_thermostat kwargs w t Hk) as [b ->]. done.
  - unfold async_set_temperature. by rewrite Hk.
Qed.

End Target.

(** ** The sensor fetch *)

Section Fetch.

Variable builtin_float : string -> Py.Result float.

(** [float] of a string raises [ValueError] and nothing else; a [TypeError]
    is as good. *)
Hypothesis float_raises : forall s e,
  builtin_float s = Py.Raise e -> Py.isinstance_ValueError_TypeError e = true.

Local Abbreviation fetch := (_async_update_data builtin_float).

(** One guarded conversion: the value, or the warning and the fallback. *)
Lemma try_float_unfold (s : string) (ok : float -> Data) (fallback : Data)
    (msg : Effect.message) (w : World) :
  try_except
    (v ← lift (builtin_float s); mret (ok v))
    Py.isinstance_ValueError_TypeError
    (λ _, _LOGGER Effect.WARNING msg;; mret fallback) w =
  match builtin_float s with
  | Py.Return v => (Py.Return (ok v), w)
  | Py.Raise _ => (Py.Return fallback, with_effect (Effect.log Effect.WARNING msg) w)
  end.
Proof.
  unfold try_except, lift, mbind, Coro_bind; simpl.
  destruct (builtin_float s) as [v|e] eqn:Hs; [done|].
  by rewrite (float_raises _ _ Hs).
Qed.

Lemma is_warning_log msg : is_warning (Effect.log Effect.WARNING msg).
Proof. by exists msg. Qed.

(** A run of the fetch, in full. *)
Lemma update_data_run w :
  exists (d : Data) (es : list Effect.t),
    fetch w =
      (Py.Return d,
       {| hass_states := hass_states w; coordinator := coordinator w;
          thermostat := thermostat w; trace := trace w ++ es |}) /\
    d !! "temperature" = Some (temperature_reading builtin_float w) /\
    d !! "price_diff_percent" = Some (price_diff_reading builtin_float w) /\
    dom d = ({["temperature"; "price_diff_percent"]} : gset string) /\
    Forall is_warning es.
Proof.
  destruct w as [st co th tr].
  unfold _async_update_data, temperature_reading, price_diff_reading, reading_of.
  unfold mbind at 1, Coro_bind at 1; simpl.
  unfold mbind at 1, Coro_bind at 1; simpl.
  unfold mbind at 1, Coro_bind at 1.
  destruct (st !! temp_sensor_id co) as [ts|]; simpl;
    [rewrite try_float_unfold; destruct (builtin_float ts) as [tv|te]|];
    simpl.
  all: destruct (Py.bool_str (price_sensor_id co)); simpl.
  all: try (unfold mbind at 1, Coro_bind at 1; simpl;
            destruct (price_sensor_id co ≫= _) as [ps|]; simpl;
            [rewrite try_float_unfold; destruct (builtin_float ps) as [pv|pe]|];
            simpl).
  all: unfold with_effect; simpl.
  all: first
    [ eexists _, []; split; [rewrite app_nil_r; reflexivity|]
    | eexists _, [_]; split; [reflexivity|]
    | eexists _, [_; _]; split; [rewrite <- app_assoc; reflexivity|] ].
  all: split; [by simplify_map_eq|].
  all: split; [by simplify_map_eq|].
  all: split; [set_solver|].
  all: repeat constructor; apply is_warning_log.
Qed.

(** C10.  The fetch always returns, and what it returns is a dict of exactly
    the two keys ["temperature"] and ["price_diff_percent"], each holding the
    sensor's number or [None]: [None] for a sensor that is missing or whose
    state is not a number (and, for the price, when no price sensor is
    configured).  It changes neither object nor the host's states, and all
    it adds to the trace is warnings. *)
Theorem update_data_total w :
  exists d : Data,
    outcome fetch w = Py.Return d /\
    d !! "temperature" = Some (temperature_reading builtin_float w) /\
    d !! "price_diff_percent" = Some (price_diff_reading builtin_float w) /\
    dom d = ({["temperature"; "price_diff_percent"]} : gset string) /\
    thermostat (run fetch w) = thermostat w /\
    coordinator (run fetch w) = coordinator w /\
    hass_states (run fetch w) = hass_states w /\
    Forall is_warning (effects fetch w).
Proof.
  destruct (update_data_run w) as (d & es & Hrun & Ht & Hp & Hdom & Hes).
  exists d. unfold outcome, effects, run. rewrite Hrun.
  cbn [fst snd trace thermostat coordinator hass_states].
  rewrite drop_trace_app. by repeat split.
Qed.

End Fetch.

(** ** The shift function *)


Section ShiftProperties.

Variable math_tanh : float -> float.

(** What is asked of the C library's [tanh]: it is odd and maps 0 to 0. *)
Hypothesis tanh_odd : forall x : float, math_tanh (- x) = (- math_tanh x)%float.
Hypothesis tanh_zero : math_tanh 0 = 0%float.





End ShiftProperties.

(** ** Examples *)

(** Scenario A runs: 19.3 is below the lower threshold 19.5, the heating bit
    is set and the actuator receives 35. *)
Example scenario_A_runs :
  let w := run (_async_control_heating linear_tanh reliable) scenario_A in
  lower (thermostat scenario_A) (_calculate_total_shift linear_tanh scenario_A) = 19.5%float /\
  _is_heating (thermostat w) = true /\
  trace w =
    [Effect.service_call "climate" "set_temperature" "climate.living_room" 35%float;
     Effect.log Effect.DEBUG Effect.Set_to;
     Effect.log Effect.INFO (Effect.Heating_state_changed true)].
Proof. vm_compute. done. Qed.

(** The same evaluation with an actuator that fails: the failure is logged
    and the heating bit is set all the same. *)
Example scenario_A_actuator_fails :
  _async_control_heating linear_tanh (failing Py.HomeAssistantError) scenario_A =
    (Py.Return tt,
     {| hass_states := ∅;
        coordinator := coordinator scenario_A;
        thermostat := with_is_heating true (thermostat scenario_A);
        trace :=
          [Effect.service_call "climate" "set_temperature" "climate.living_room" 35%float;
           Effect.log Effect.ERROR (Effect.Failed_to_set Py.HomeAssistantError);
           Effect.log Effect.INFO (Effect.Heating_state_changed true)] |}).
Proof. reflexivity. Qed.

(** Heating, then the command OFF: the actuator receives 35, then 5. *)
Example heat_then_off :
  let w := history linear_tanh reliable living_room ∅
             [Publish (Some (published (Some 19.3%float) None)); Evaluate;
              Set_hvac_mode HVACMode.OFF; Evaluate] in
  commanded (trace w) = [35%float; 5%float] /\
  _hvac_mode (thermostat w) = HVACMode.OFF /\
  _is_heating (thermostat w) = false.
Proof. vm_compute. done. Qed.

(** A fetch with the temperature sensor unavailable and no price sensor. *)
Example fetch_unavailable :
  _async_update_data float_of_known
    (setup living_room {["sensor.living_room_temperature" := "unavailable"]}) =
    (Py.Return (published None None),
     with_effect (Effect.log Effect.WARNING Effect.Invalid_temperature_value)
       (setup living_room {["sensor.living_room_temperature" := "unavailable"]})).
Proof. reflexivity. Qed.

(** With a price sensor configured and 49 percent published, the aggregated
    shift is the base shift 0.0 plus the price shift. *)
Example priced_total_shift :
  forall math_tanh,
    _calculate_total_shift math_tanh
      (with_data (Some (published (Some 19.3%float) (Some 49%float)))
         (setup living_room_priced ∅)) =
      (0.0 + price_based_shift_percent math_tanh 49 3.0 1.5)%float.
Proof. intros math_tanh. reflexivity. Qed.

(** Scenario B: with the price 49 percent above the reference, the quotient
    is 0.49 and the argument of [tanh] is 0.735 (to the nearest binary64). *)
Example scenario_B_argument :
  forall math_tanh,
    price_based_shift_percent math_tanh 49 3.0 1.5 =
      (- 3.0 * math_tanh 0x1.7851eb851eb85p-1)%float.
Proof. intros math_tanh. reflexivity. Qed.

(** C8, where it fails on the code.  Whatever [math.tanh] and the actuator
    do, the command does not clamp: after [async_set_temperature
    (temperature=100.0)] on a fresh entity the target is 100.0, above the
    declared maximum 35.0. *)
Lemma set_temperature_not_clamped :
  let w := setup living_room ∅ in
  let kwargs : gmap string float := {["temperature" := 100%float]} in
  (~ exists math_tanh services_async_call,
       let after :=
         thermostat (run (async_set_temperature math_tanh services_async_call kwargs) w) in
       (_target_temperature after <=? _attr_max_temp after)%float = true) /\
  (~ exists math_tanh services_async_call,
       clamps_target math_tanh services_async_call).
Proof.
  assert (forall math_tanh services_async_call,
            let after :=
              thermostat (run (async_set_temperature math_tanh services_async_call
                                 {["temperature" := 100%float]}) (setup living_room ∅)) in
            (_target_temperature after <=? _attr_max_temp after)%float = false)
    as Habove.
  { intros math_tanh services_async_call.
    destruct (set_temperature_thermostat math_tanh services_async_call
                {["temperature" := 100%float]} (setup living_room ∅) 100%float
                (lookup_singleton_eq _ _)) as [b Hb].
    simpl. by rewrite Hb. }
  simpl in Habove. split.
  - intros (math_tanh & services_async_call & H). simpl in H.
    by rewrite Habove in H.
  - intros (math_tanh & services_async_call & H).
    destruct (H (setup living_room ∅) {["temperature" := 100%float]} 100%float
                (lookup_singleton_eq _ _)) as [_ Hmax].
    simpl in Hmax. by rewrite Habove in Hmax.
Qed.

(** ** The theorems at work *)

Lemma hysteresis_decision_scenario_A :
  _is_heating
    (thermostat (run (_async_control_heating linear_tanh reliable) scenario_A)) = true.
Proof.
  exact (proj1 (hysteresis_decision linear_tanh reliable scenario_A 19.3%float
                  eq_refl eq_refl) eq_refl).
Defined.

Lemma edge_triggered_actuation_scenario_A :
  commanded (effects (_async_control_heating linear_tanh reliable) scenario_A) =
    [35%float].
Proof.
  refine (proj2 (proj1 (edge_triggered_actuation linear_tanh reliable scenario_A
                          19.3%float eq_refl eq_refl) _)).
  vm_compute. discriminate.
Defined.

Lemma no_reading_no_decision_after_setup :
  thermostat (run (_async_control_heating linear_tanh reliable) (setup living_room ∅)) =
    thermostat (setup living_room ∅).
Proof.
  exact (proj1 (proj2 (no_reading_no_decision linear_tanh reliable
                         (setup living_room ∅) eq_refl eq_refl))).
Defined.

Lemma actuator_failure_contained_scenario_A :
  outcome (_async_control_heating linear_tanh (failing Py.HomeAssistantError))
    scenario_A = Py.Return tt /\
  _is_heating
    (thermostat (run (_async_control_heating linear_tanh (failing Py.HomeAssistantError))
                   scenario_A)) = true.
Proof.
  assert (true <> false) as Hne by discriminate.
  destruct (actuator_failure_contained linear_tanh (failing Py.HomeAssistantError)
              scenario_A 19.3%float Py.HomeAssistantError
              eq_refl eq_refl Hne eq_refl eq_refl) as (Hout & Hbit & _).
  split; [exact Hout|exact Hbit].
Defined.

Lemma reliable_not_cancelled :
  forall (w : World) (domain service entity_id : string) (t : float) (e : Py.Exn),
    reliable w domain service entity_id t = Some e ->
    Py.isinstance_Exception e = true.
Proof. intros w domain service entity_id t e H. discriminate H. Defined.


Lemma float_of_known_raises :
  forall (s : string) (e : Py.Exn),
    float_of_known s = Py.Raise e -> Py.isinstance_ValueError_TypeError e = true.
Proof.
  intros s e. unfold float_of_known.
  destruct (String.eqb s "19.3"); [discriminate|].
  destruct (String.eqb s "49"); [discriminate|].
  intros H. injection H as <-. reflexivity.
Defined.

Lemma update_data_total_living_room :
  exists d : Data,
    outcome (_async_update_data float_of_known)
      (setup living_room {["sensor.living_room_temperature" := "19.3"]}) = Py.Return d /\
    d !! "temperature" = Some (Some 19.3%float).
Proof.
  destruct (update_data_total float_of_known float_of_known_raises
              (setup living_room {["sensor.living_room_temperature" := "19.3"]}))
    as (d & Hout & Ht & _).
  exists d. split; [exact Hout|exact Ht].
Defined.



(** * More of the component *)

(** ** Histories *)

Section Histories.

Variable math_tanh : float -> float.
Variable services_async_call :
  World -> string -> string -> string -> float -> option Py.Exn.

Local Abbreviation set_real := (_async_set_real_thermostat services_async_call).
Local Abbreviation control := (_async_control_heating math_tanh services_async_call).
Local Abbreviation set_temperature := (async_set_temperature math_tanh services_async_call).
Local Abbreviation set_hvac_mode := (async_set_hvac_mode math_tanh services_async_call).
Local Abbreviation step_ := (step math_tanh services_async_call).
Local Abbreviation history_ := (history math_tanh services_async_call).

(** A run of the actuator adapter, whatever the call does: the entity is
    untouched and the one service call is the one asked for; it raises only
    what is not an [Exception]. *)
Lemma set_real_thermostat_any t w :
  exists r es,
    set_real t w = (r, {| hass_states := hass_states w; coordinator := coordinator w;
                          thermostat := thermostat w; trace := trace w ++ es |}) /\
    calls es = [set_temperature_call (thermostat w) t] /\
    (r = Py.Return tt \/ exists e, r = Py.Raise e /\ Py.isinstance_Exception e = false).
Proof.
  rewrite set_real_thermostat_unfold; simpl.
  destruct (services_async_call w _ _ _ t) as [e|]; simpl;
    [destruct (Py.isinstance_Exception e) eqn:He; simpl|].
  all: unfold with_effect; simpl; rewrite <- ?app_assoc.
  all: eexists _, _; split; [reflexivity|]; split; [reflexivity|].
  all: eauto.
Qed.

(** A run of the evaluation, whatever the call does: the heating bit becomes
    the decision, nothing else in the entity changes, and the service calls
    are the transition's. *)
Lemma control_heating_any w :
  exists r es,
    control w = (r, {| hass_states := hass_states w; coordinator := coordinator w;
                       thermostat := with_is_heating (decision math_tanh w) (thermostat w);
                       trace := trace w ++ es |}) /\
    calls es = transition_call (thermostat w) (decision math_tanh w) /\
    (r = Py.Return tt \/ exists e, r = Py.Raise e /\ Py.isinstance_Exception e = false).
Proof.
  unfold decision, transition_call.
  destruct (HVACMode.eqb (_hvac_mode (thermostat w)) HVACMode.OFF) eqn:Hmode.
  - exists (Py.Return tt), [].
    unfold _async_control_heating, mbind, Coro_bind; simpl. rewrite Hmode; simpl.
    rewrite with_is_heating_same, app_nil_r, Bool.eqb_reflx.
    split; [by destruct w|]. split; [done|by left].
  - destruct (current_temperature w) as [t|] eqn:Ht.
    + rewrite (control_heating_unfold _ _ w t Hmode Ht); simpl.
      destruct (negb _) eqn:Hne.
      * apply negb_true_iff in Hne. rewrite Hne.
        unfold mbind, Coro_bind.
        match goal with |- context [set_real ?sp ?w1] =>
          destruct (set_real_thermostat_any sp w1) as (r & es & -> & Hcalls & Hr) end.
        destruct Hr as [-> | (e & -> & He)];
          unfold _LOGGER, emit, modify, with_effect, with_thermostat; simpl.
        -- eexists _, (es ++ [_]). rewrite <- app_assoc. split; [reflexivity|].
           split; [|by left]. unfold calls in *.
           rewrite List.filter_app, Hcalls. done.
        -- eexists _, es. split; [reflexivity|]. split; [done|]. right. eauto.
      * apply eqb_false_neq in Hne. rewrite Hne, Bool.eqb_reflx.
        exists (Py.Return tt), [].
        rewrite with_is_heating_same, app_nil_r.
        split; [by destruct w|]. split; [done|by left].
    + rewrite (control_heating_no_reading _ _ w Hmode Ht).
      rewrite with_is_heating_same, Bool.eqb_reflx.
      eexists _, [_]. split; [reflexivity|]. split; [done|by left].
Qed.

(** The evaluation sees the world through the entity and the coordinator. *)
Lemma decision_ext w w' :
  thermostat w' = thermostat w -> coordinator w' = coordinator w ->
  decision math_tanh w' = decision math_tanh w.
Proof.
  intros Hth Hco.
  unfold decision, current_temperature, _calculate_total_shift. by rewrite Hth, Hco.
Qed.

(** Once taken, the decision stands: the world an evaluation leaves decides
    the same. *)
Lemma decision_stands w w' :
  thermostat w' = with_is_heating (decision math_tanh w) (thermostat w) ->
  coordinator w' = coordinator w ->
  decision math_tanh w' = _is_heating (thermostat w').
Proof.
  intros Hth Hco.
  unfold decision at 1, current_temperature, _calculate_total_shift.
  rewrite Hth, Hco; simpl.
  destruct (HVACMode.eqb _ _) eqn:Hmode; [done|].
  fold (current_temperature w).
  destruct (current_temperature w) as [t|] eqn:Ht; [|done].
  unfold decision. rewrite Hmode, Ht. unfold _calculate_total_shift.
  by rewrite should_heat_idempotent.
Qed.

Lemma HVACMode_eqb_eq a b : HVACMode.eqb a b = true <-> a = b.
Proof. split; [by destruct a, b|intros ->; by destruct b]. Qed.

Lemma set_hvac_mode_on_unfold m w :
  HVACMode.mem m (_attr_hvac_modes (thermostat w)) = true ->
  HVACMode.eqb m HVACMode.OFF = false ->
  set_hvac_mode m w =
    (control;; async_write_ha_state) (with_thermostat (with_hvac_mode m) w).
Proof.
  intros Hmem Hoff. unfold async_set_hvac_mode.
  unfold mbind at 1, Coro_bind at 1; simpl. rewrite Hmem; simpl.
  unfold mbind at 1, Coro_bind at 1; simpl. by rewrite Hoff.
Qed.

(** An input that runs the evaluation: the entity is the prepared one with
    the heating bit decided, and the service calls are the transition's. *)
Lemma step_evaluates w i :
  evaluates (thermostat w) i = true ->
  exists es,
    thermostat (step_ w i) =
      with_is_heating (decision math_tanh (prepared w i)) (thermostat (prepared w i)) /\
    coordinator (step_ w i) = coordinator w /\
    hass_states (step_ w i) = hass_states w /\
    trace (step_ w i) = trace w ++ es /\
    calls es = transition_call (thermostat w) (decision math_tanh (prepared w i)).
Proof.
  intros Hev. destruct i as [d| |kwargs|m]; simpl in Hev; [done| | |].
  - simpl. unfold run.
    destruct (control_heating_any w) as (r & es & -> & Hcalls & _).
    by exists es.
  - apply bool_decide_eq_true in Hev as [t Ht].
    simpl. rewrite Ht; simpl. unfold run.
    rewrite (set_temperature_unfold _ _ kwargs w t Ht).
    unfold mbind, Coro_bind.
    destruct (control_heating_any (with_thermostat (with_target_temperature t) w))
      as (r & es & -> & Hcalls & Hr).
    destruct Hr as [-> | (e & -> & _)];
      unfold async_write_ha_state, emit, modify, with_effect, with_thermostat in *;
      simpl in *.
    + exists (es ++ [Effect.write_ha_state]).
      split; [done|]. split; [done|]. split; [done|].
      split; [by rewrite app_assoc|].
      unfold calls in *. rewrite List.filter_app, Hcalls; simpl.
      by rewrite app_nil_r.
    + exists es. by repeat split.
  - apply andb_true_iff in Hev as [Hmem Hoff%negb_true_iff].
    simpl. rewrite Hmem. unfold run.
    rewrite (set_hvac_mode_on_unfold m w Hmem Hoff).
    unfold mbind, Coro_bind.
    destruct (control_heating_any (with_thermostat (with_hvac_mode m) w))
      as (r & es & -> & Hcalls & Hr).
    destruct Hr as [-> | (e & -> & _)];
      unfold async_write_ha_state, emit, modify, with_effect, with_thermostat in *;
      simpl in *.
    + exists (es ++ [Effect.write_ha_state]).
      split; [done|]. split; [done|]. split; [done|].
      split; [by rewrite app_assoc|].
      unfold calls in *. rewrite List.filter_app, Hcalls; simpl.
      by rewrite app_nil_r.
    + exists es. by repeat split.
Qed.

(** The mode command OFF: the mode is OFF, the one service call commands the
    low setpoint, and the heating bit is cleared unless the call was
    cancelled. *)
Lemma step_switches_off w i :
  switches_off (thermostat w) i = true ->
  exists b es,
    thermostat (step_ w i) =
      with_is_heating b (with_hvac_mode HVACMode.OFF (thermostat w)) /\
    coordinator (step_ w i) = coordinator w /\
    hass_states (step_ w i) = hass_states w /\
    trace (step_ w i) = trace w ++ es /\
    calls es = [set_temperature_call (thermostat w) (_low_setpoint (thermostat w))] /\
    (b = false \/
     b = _is_heating (thermostat w) /\
     exists w' domain service entity_id t e,
       services_async_call w' domain service entity_id t = Some e /\
       Py.isinstance_Exception e = false).
Proof.
  intros Hoff. destruct i as [d| |kwargs|m]; simpl in Hoff; try done.
  apply andb_true_iff in Hoff as [Hmem ->%HVACMode_eqb_eq].
  simpl. unfold run. rewrite (set_hvac_mode_OFF_unfold _ _ w Hmem).
  rewrite set_real_thermostat_unfold; simpl.
  destruct (services_async_call _ _ _ _ _) as [e|] eqn:Hcall; simpl;
    [destruct (Py.isinstance_Exception e) eqn:He; simpl|].
  - eexists false, [_; _; _]. rewrite <- !app_assoc. repeat split. by left.
  - eexists (_is_heating (thermostat w)), [_].
    split; [symmetry;
            apply (with_is_heating_same (with_hvac_mode HVACMode.OFF (thermostat w)))|].
    repeat split. right. split; [done|]. eauto 10.
  - eexists false, [_; _; _]. rewrite <- !app_assoc. repeat split. by left.
Qed.

(** A command that does not take effect changes nothing at all. *)
Lemma step_ignored w i :
  takes_effect (thermostat w) i = false ->
  match i with
  | Publish d => step_ w i = with_data d w
  | _ => step_ w i = w
  end.
Proof.
  unfold takes_effect. intros [Hev Hoff]%orb_false_iff.
  destruct i as [d| |kwargs|m]; simpl in *; try done.
  - apply bool_decide_eq_false in Hev.
    unfold run, async_set_temperature.
    destruct (kwargs !! "temperature") as [t|]; [|done].
    exfalso. apply Hev. by eexists.
  - unfold run. rewrite set_hvac_mode_other; [done|].
    destruct (HVACMode.mem m _); [|done]. simpl in *.
    by destruct (HVACMode.eqb m HVACMode.OFF).
Qed.

(** Whatever the input, the entity after it is the entity before with the
    target and the mode the input asks for, and some heating bit. *)
Lemma step_thermostat w i :
  exists b,
    thermostat (step_ w i) =
      with_is_heating b
        (with_hvac_mode (next_mode (thermostat w) i)
           (with_target_temperature (next_target (thermostat w) i) (thermostat w))).
Proof.
  destruct (evaluates (thermostat w) i) eqn:Hev.
  - destruct (step_evaluates w i Hev) as (es & -> & _).
    exists (decision math_tanh (prepared w i)).
    generalize (decision math_tanh (prepared w i)) as b. intros b.
    destruct i as [d| |kwargs|m]; simpl in *; done.
  - destruct (switches_off (thermostat w) i) eqn:Hoff.
    + destruct (step_switches_off w i Hoff) as (b & es & -> & _).
      exists b. destruct i as [d| |kwargs|m]; simpl in *; try done.
      by apply andb_true_iff in Hoff as [-> ->%HVACMode_eqb_eq].
    + pose proof (step_ignored w i) as Hig. unfold takes_effect in Hig.
      rewrite Hev, Hoff in Hig. specialize (Hig eq_refl).
      exists (_is_heating (thermostat w)).
      destruct i as [d| |kwargs|m]; rewrite Hig; simpl in *; try done.
      * by destruct (thermostat w).
      * apply bool_decide_eq_false in Hev.
        destruct (kwargs !! "temperature") as [t|]; [|by destruct (thermostat w)].
        exfalso. apply Hev. by eexists.
      * destruct (HVACMode.mem m _); [|by destruct (thermostat w)]. simpl in *.
        by destruct (HVACMode.eqb m HVACMode.OFF).
Qed.

(** The service calls of one step: none, the transition's, or the one that
    commands the low setpoint. *)
Lemma step_calls w i :
  exists es,
    trace (step_ w i) = trace w ++ es /\
    Forall (λ e, e = set_temperature_call (thermostat w) (_high_setpoint (thermostat w)) \/
                 e = set_temperature_call (thermostat w) (_low_setpoint (thermostat w)))
      (calls es).
Proof.
  destruct (evaluates (thermostat w) i) eqn:Hev.
  - destruct (step_evaluates w i Hev) as (es & _ & _ & _ & Htr & Hcalls).
    exists es. split; [done|]. rewrite Hcalls. unfold transition_call.
    destruct (Bool.eqb _ _); [constructor|].
    constructor; [|constructor]. destruct (decision _ _); auto.
  - destruct (switches_off (thermostat w) i) eqn:Hoff.
    + destruct (step_switches_off w i Hoff) as (b & es & _ & _ & _ & Htr & Hcalls & _).
      exists es. split; [done|]. rewrite Hcalls. constructor; [|constructor]. auto.
    + pose proof (step_ignored w i) as Hig. unfold takes_effect in Hig.
      rewrite Hev, Hoff in Hig. specialize (Hig eq_refl).
      exists []. rewrite app_nil_r. split; [|constructor].
      destruct i; by rewrite Hig.
Qed.

Lemma calls_app es es' : calls (es ++ es') = calls es ++ calls es'.
Proof. apply List.filter_app. Qed.

Lemma commanded_calls es : commanded (calls es) = commanded es.
Proof.
  induction es as [|e es IH]; [done|].
  destruct e; simpl; try done. unfold commanded in *. simpl. by rewrite IH.
Qed.

Lemma commanded_app es es' : commanded (es ++ es') = commanded es ++ commanded es'.
Proof. unfold commanded. apply omap_app. Qed.

Lemma commanded_transition self b :
  commanded (transition_call self b) =
    if Bool.eqb b (_is_heating self) then []
    else [if b then _high_setpoint self else _low_setpoint self].
Proof. unfold transition_call. by destruct (Bool.eqb _ _). Qed.

(** An evaluation of a world whose decision is its heating bit does nothing
    to the entity and calls no service. *)
Lemma decided_no_call w :
  decision math_tanh w = _is_heating (thermostat w) ->
  calls (effects control w) = [] /\ thermostat (run control w) = thermostat w.
Proof.
  intros Hd. unfold effects, run.
  destruct (control_heating_any w) as (r & es & -> & Hcalls & _); simpl.
  rewrite drop_trace_app, Hcalls, Hd. unfold transition_call.
  rewrite Bool.eqb_reflx. split; [done|]. apply with_is_heating_same.
Qed.

(** X1.  After any input that takes effect (an evaluation, a temperature
    command with a temperature, a supported mode command), a further
    evaluation on the same data calls no service and leaves the entity as
    it is: the controller has settled, whatever the actuator call did. *)
Theorem command_leaves_entity_settled w i :
  takes_effect (thermostat w) i = true ->
  calls (effects control (step_ w i)) = [] /\
  thermostat (run control (step_ w i)) = thermostat (step_ w i).
Proof.
  intros Heff. apply decided_no_call.
  destruct (evaluates (thermostat w) i) eqn:Hev.
  - destruct (step_evaluates w i Hev) as (es & Hth & Hco & _).
    apply (decision_stands (prepared w i)); [done|].
    rewrite Hco. by destruct i.
  - unfold takes_effect in Heff. rewrite Hev in Heff; simpl in Heff.
    destruct (step_switches_off w i Heff) as (b & es & Hth & _).
    unfold decision. by rewrite Hth.
Qed.

(** The entity of an entry, after any inputs. *)
Lemma history_thermostat entry states inputs :
  exists b,
    thermostat (history_ entry states inputs) =
      entity_of entry (last_target inputs) (last_mode inputs) b.
Proof.
  unfold history, last_target, last_mode.
  assert (exists b, thermostat (setup entry states) =
                      entity_of entry 20.0%float HVACMode.HEAT b) as Hinit
    by (by exists false).
  revert Hinit. generalize (setup entry states) as w.
  generalize 20.0%float as t. generalize HVACMode.HEAT as m.
  induction inputs as [|i inputs IH]; intros m t w Hw; simpl; [done|].
  apply IH. destruct Hw as [b Hw].
  destruct (step_thermostat w i) as [b' ->]. rewrite Hw. exists b'.
  destruct i as [d| |kwargs|m']; simpl; done.
Qed.

Lemma step_entity entry t m b w i :
  thermostat w = entity_of entry t m b ->
  exists b',
    thermostat (step_ w i) = entity_of entry (target_after t i) (mode_after m i) b'.
Proof.
  intros Hw. destruct (step_thermostat w i) as [b' ->]. rewrite Hw. exists b'.
  destruct i as [d| |kwargs|m']; simpl; done.
Qed.

(** The setpoints one step commands, by the heating bit it leaves: the low
    one for a mode command OFF; for any other input the one of the
    transition, when the bit has changed. *)
Lemma step_commanded w i :
  exists es,
    trace (step_ w i) = trace w ++ es /\
    commanded es =
      let self := thermostat w in
      let b' := _is_heating (thermostat (step_ w i)) in
      if switches_off self i then [_low_setpoint self]
      else if Bool.eqb b' (_is_heating self) then []
      else [if b' then _high_setpoint self else _low_setpoint self].
Proof.
  cbv zeta. destruct (switches_off (thermostat w) i) eqn:Hoff.
  - destruct (step_switches_off w i Hoff) as (b & es & _ & _ & _ & Htr & Hcalls & _).
    exists es. split; [done|]. by rewrite <- commanded_calls, Hcalls.
  - destruct (evaluates (thermostat w) i) eqn:Hev.
    + destruct (step_evaluates w i Hev) as (es & Hth & _ & _ & Htr & Hcalls).
      exists es. split; [done|].
      rewrite <- commanded_calls, Hcalls, commanded_transition, Hth. done.
    + pose proof (step_ignored w i) as Hig. unfold takes_effect in Hig.
      rewrite Hev, Hoff in Hig. specialize (Hig eq_refl).
      exists []. rewrite app_nil_r.
      destruct i; rewrite Hig; simpl; by rewrite Bool.eqb_reflx.
Qed.

(** X2.  In every world of a history the entity is the one [__init__] made
    of the entry, but for three fields: the target is the last temperature
    commanded (20.0 before any), the mode is the last supported mode
    commanded (HEAT before any), and the heating bit.  No input changes the
    configuration, the declared range or the list of modes. *)
Theorem entity_in_history entry states inputs :
  let self := thermostat (history_ entry states inputs) in
  self = entity_of entry (last_target inputs) (last_mode inputs) (_is_heating self).
Proof.
  simpl. destruct (history_thermostat entry states inputs) as [b Hb].
  by rewrite Hb.
Qed.

(** X3.  Every service call of a history is [climate.set_temperature] on
    the entry's real thermostat, with the entry's high or low setpoint: the
    target temperature is never sent to the actuator. *)
Theorem only_two_setpoints entry states inputs :
  Forall (λ e, e = call_of entry (high_setpoint entry) \/
               e = call_of entry (low_setpoint entry))
    (calls (trace (history_ entry states inputs))).
Proof.
  unfold history.
  assert ((exists t m b, thermostat (setup entry states) = entity_of entry t m b) /\
          Forall (λ e, e = call_of entry (high_setpoint entry) \/
                       e = call_of entry (low_setpoint entry))
            (calls (trace (setup entry states)))) as Hinit.
  { split; [by eexists _, _, _|constructor]. }
  revert Hinit. generalize (setup entry states) as w.
  induction inputs as [|i inputs IH]; intros w [Hw Hcalls]; simpl; [done|].
  apply IH. destruct Hw as (t & m & b & Hw). split.
  - destruct (step_entity entry t m b w i Hw) as [b' Hb']. eauto.
  - destruct (step_calls w i) as (es & -> & Hes).
    rewrite calls_app. apply Forall_app. split; [done|].
    by rewrite Hw in Hes.
Qed.

(** X5.  In a history without mode commands the setpoints commanded
    alternate, the high one first: they are high, low, high, ... and the
    heating bit is set exactly when their number is odd.  So no setpoint is
    commanded twice in a row. *)
Theorem commands_alternate entry states inputs :
  forallb (λ i, negb (is_mode_command i)) inputs = true ->
  let w := history_ entry states inputs in
  exists n,
    commanded (trace w) = alternating (high_setpoint entry) (low_setpoint entry) n /\
    _is_heating (thermostat w) = Nat.odd n.
Proof.
  intros Hinputs; simpl. unfold history.
  assert ((exists t m b, thermostat (setup entry states) = entity_of entry t m b) /\
          exists n,
            commanded (trace (setup entry states)) =
              alternating (high_setpoint entry) (low_setpoint entry) n /\
            _is_heating (thermostat (setup entry states)) = Nat.odd n) as Hinit.
  { split; [by eexists _, _, _|by exists 0]. }
  revert Hinit. generalize (setup entry states) as w.
  induction inputs as [|i inputs IH]; intros w [Hw Hn]; simpl; [done|].
  simpl in Hinputs. apply andb_true_iff in Hinputs as [Hi Hinputs].
  apply (IH Hinputs). destruct Hw as (t & m & b & Hw). split.
  - destruct (step_entity entry t m b w i Hw) as [b' Hb']. eauto.
  - destruct Hn as (n & Hcmd & Hbit).
    destruct (step_commanded w i) as (es & -> & Hes). cbv zeta in Hes.
    assert (switches_off (thermostat w) i = false) as Hoff by (by destruct i).
    rewrite Hoff, Hbit in Hes. rewrite commanded_app, Hcmd, Hes.
    rewrite Hw; simpl.
    destruct (_is_heating (thermostat (step_ w i))) eqn:Hb', (Nat.odd n) eqn:Hodd;
      simpl.
    + exists n. by rewrite app_nil_r.
    + exists (S n). rewrite Nat.odd_succ. unfold Nat.odd in Hodd.
      apply negb_false_iff in Hodd. rewrite Hodd. by simpl; rewrite Hodd.
    + exists (S n). rewrite Nat.odd_succ. unfold Nat.odd in Hodd.
      apply negb_true_iff in Hodd. rewrite Hodd. by simpl; rewrite Hodd.
    + exists n. by rewrite app_nil_r.
Qed.

Section NotCancelled.

(** The actuator call fails or succeeds, and is never cancelled. *)
Hypothesis not_cancelled : forall w domain service entity_id t e,
  services_async_call w domain service entity_id t = Some e ->
  Py.isinstance_Exception e = true.

(** X4.  With an actuator call that is never cancelled, in every world of a
    history the heating bit tells the last setpoint commanded: when it is
    set, the last one is the high setpoint; when it is clear, the last one
    is the low setpoint, or none was commanded yet. *)
Theorem heating_bit_is_last_command entry states inputs :
  let w := history_ entry states inputs in
  (_is_heating (thermostat w) = true ->
     last (commanded (trace w)) = Some (high_setpoint entry)) /\
  (_is_heating (thermostat w) = false ->
     last (commanded (trace w)) = None \/
     last (commanded (trace w)) = Some (low_setpoint entry)).
Proof.
  simpl. unfold history.
  assert ((exists t m b, thermostat (setup entry states) = entity_of entry t m b) /\
          (_is_heating (thermostat (setup entry states)) = true ->
             last (commanded (trace (setup entry states))) = Some (high_setpoint entry)) /\
          (_is_heating (thermostat (setup entry states)) = false ->
             last (commanded (trace (setup entry states))) = None \/
             last (commanded (trace (setup entry states))) = Some (low_setpoint entry)))
    as Hinit.
  { split; [by eexists _, _, _|]. split; [done|by left]. }
  revert Hinit. generalize (setup entry states) as w.
  induction inputs as [|i inputs IH]; intros w (Hw & Hon & Hoff); simpl; [done|].
  apply IH. destruct Hw as (t & m & b & Hw). split.
  - destruct (step_entity entry t m b w i Hw) as [b' Hb']. eauto.
  - destruct (step_commanded w i) as (es & -> & Hes). simpl in Hes.
    rewrite commanded_app, Hes.
    destruct (switches_off (thermostat w) i) eqn:Hsw.
    + destruct (step_switches_off w i Hsw) as (b' & es' & -> & _ & _ & _ & _ & Hb').
      destruct Hb' as [-> | (_ & w' & d & sv & id & t' & e & Hcall & He)].
      * simpl. rewrite last_snoc, Hw; simpl. split; [done|by right].
      * by rewrite (not_cancelled _ _ _ _ _ _ Hcall) in He.
    + rewrite Hw in *; simpl in *.
      destruct (_is_heating (thermostat (step_ w i))) eqn:Hb', b; simpl.
      * rewrite app_nil_r. split; [done|]. intros [=].
      * rewrite last_snoc. split; [done|]. intros [=].
      * rewrite last_snoc. split; [intros [=]|by right].
      * rewrite app_nil_r. split; [intros [=]|done].
Qed.

End NotCancelled.

End Histories.

(** ** The decision: order and NaN *)

Lemma SFcompare_refl a : SFcompare a a = Some Eq \/ a = S754_nan.
Proof.
  destruct a as [[]|[]| |[] m e]; simpl; auto.
  all: rewrite Z.compare_refl.
  all: change (Pos.compare_cont Eq m m) with (Pos.compare m m).
  all: rewrite Pos.compare_refl; auto.
Qed.

Lemma is_nan_SF (x : float) : is_nan x = true -> Prim2SF x = S754_nan.
Proof.
  unfold is_nan. rewrite FloatAxioms.eqb_spec. intros H%negb_true_iff.
  destruct (SFcompare_refl (Prim2SF x)) as [Heq|Hnan]; [|done].
  unfold SFeqb in H. by rewrite Heq in H.
Qed.

Lemma ltb_nan_l (x y : float) : is_nan x = true -> (x <? y)%float = false.
Proof. intros H. rewrite ltb_spec, (is_nan_SF x H). by destruct (Prim2SF y). Qed.

Lemma ltb_nan_r (x y : float) : is_nan y = true -> (x <? y)%float = false.
Proof.
  intros H. rewrite ltb_spec, (is_nan_SF y H). unfold SFltb.
  by destruct (Prim2SF x) as [[]|[]| |[] m e].
Qed.

(** Order on binary64: [<=] then [<], and [<] then [<=], give [<]. *)
Ltac cmp_cases :=
  repeat match goal with
  | H : context [(?a ?= ?b)%Z] |- _ => destruct (Z.compare_spec a b); subst
  | |- context [(?a ?= ?b)%Z] => destruct (Z.compare_spec a b); subst
  | H : context [Pos.compare_cont Eq ?a ?b] |- _ =>
      change (Pos.compare_cont Eq a b) with (Pos.compare a b) in *
  | |- context [Pos.compare_cont Eq ?a ?b] =>
      change (Pos.compare_cont Eq a b) with (Pos.compare a b) in *
  | H : context [(?a ?= ?b)%positive] |- _ => destruct (Pos.compare_spec a b); subst
  | |- context [(?a ?= ?b)%positive] => destruct (Pos.compare_spec a b); subst
  end.

Lemma SFleb_ltb_trans a b c :
  SFleb a b = true -> SFltb b c = true -> SFltb a c = true.
Proof.
  unfold SFleb, SFltb.
  destruct a as [[]|[]| |[] ma ea], b as [[]|[]| |[] mb eb], c as [[]|[]| |[] mc ec];
    simpl; try done.
  all: cmp_cases; simpl in *; try done; try lia.
Qed.

Lemma SFltb_leb_trans a b c :
  SFltb a b = true -> SFleb b c = true -> SFltb a c = true.
Proof.
  unfold SFleb, SFltb.
  destruct a as [[]|[]| |[] ma ea], b as [[]|[]| |[] mb eb], c as [[]|[]| |[] mc ec];
    simpl; try done.
  all: cmp_cases; simpl in *; try done; try lia.
Qed.

Lemma leb_ltb_trans (x y z : float) :
  (x <=? y)%float = true -> (y <? z)%float = true -> (x <? z)%float = true.
Proof. rewrite leb_spec, !ltb_spec. apply SFleb_ltb_trans. Qed.

Lemma ltb_leb_trans (x y z : float) :
  (x <? y)%float = true -> (y <=? z)%float = true -> (x <? z)%float = true.
Proof. rewrite leb_spec, !ltb_spec. apply SFltb_leb_trans. Qed.

(** X7.  The hysteresis decision is monotone in the reading: if it heats at
    a reading, it heats at every reading that is not above it (binary64
    [<=]), with the same target, tolerance, shift and heating bit. *)
Theorem colder_reading_keeps_heating t1 t2 target tolerance total_shift b :
  (t1 <=? t2)%float = true ->
  should_heat t2 target tolerance total_shift b = true ->
  should_heat t1 target tolerance total_shift b = true.
Proof.
  unfold should_heat, Py.gtb. intros Hle.
  destruct (t2 <? _)%float eqn:H2.
  - by rewrite (leb_ltb_trans _ _ _ Hle H2).
  - destruct (_ <? t2)%float eqn:H2'; [done|]. intros ->.
    destruct (t1 <? _)%float; [done|].
    destruct (_ <? t1)%float eqn:H1'; [|done].
    by rewrite (ltb_leb_trans _ _ _ H1' Hle) in H2'.
Qed.

Lemma add_nan_r (x y : float) : is_nan y = true -> is_nan (x + y) = true.
Proof.
  intros H. apply is_nan_SF in H.
  assert (Prim2SF (x + y) = S754_nan) as Hsum.
  { rewrite add_spec, H. unfold SF64add, SFadd. by destruct (Prim2SF x) as [[]|[]| |[] m e]. }
  unfold is_nan. rewrite FloatAxioms.eqb_spec, Hsum. done.
Qed.

Lemma should_heat_nan t target tolerance total_shift b :
  is_nan t = true \/ is_nan total_shift = true ->
  should_heat t target tolerance total_shift b = b.
Proof.
  unfold should_heat, Py.gtb. intros [H|H].
  - by rewrite (ltb_nan_l _ _ H), (ltb_nan_r _ _ H).
  - rewrite (ltb_nan_r _ _ (add_nan_r _ _ H)), (ltb_nan_l _ _ (add_nan_r _ _ H)). done.
Qed.

Section Evaluations.

Variable math_tanh : float -> float.
Variable services_async_call :
  World -> string -> string -> string -> float -> option Py.Exn.

Local Abbreviation control := (_async_control_heating math_tanh services_async_call).
Local Abbreviation step_ := (step math_tanh services_async_call).
Local Abbreviation history_ := (history math_tanh services_async_call).

(** X8.  A reading that is NaN, or a total shift that is NaN, keeps the
    state: neither comparison holds, so the evaluation calls no service and
    leaves the entity as it is. *)
Theorem nan_keeps_state w t :
  current_temperature w = Some t ->
  is_nan t = true \/ is_nan (_calculate_total_shift math_tanh w) = true ->
  calls (effects control w) = [] /\ thermostat (run control w) = thermostat w.
Proof.
  intros Ht Hnan. apply decided_no_call. unfold decision. rewrite Ht.
  destruct (HVACMode.eqb _ _); [done|]. by apply should_heat_nan.
Qed.

Lemma transition_call_length self b : length (transition_call self b) <= 1.
Proof. unfold transition_call. destruct (Bool.eqb _ _); simpl; lia. Qed.

Lemma step_calls_length w i :
  exists es, trace (step_ w i) = trace w ++ es /\ length (calls es) <= 1.
Proof.
  destruct (evaluates (thermostat w) i) eqn:Hev.
  - destruct (step_evaluates math_tanh services_async_call w i Hev) as (es & _ & _ & _ & Htr & Hcalls).
    exists es. split; [done|]. rewrite Hcalls. apply transition_call_length.
  - destruct (switches_off (thermostat w) i) eqn:Hoff.
    + destruct (step_switches_off math_tanh services_async_call w i Hoff) as (b & es & _ & _ & _ & Htr & Hcalls & _).
      exists es. split; [done|]. by rewrite Hcalls.
    + pose proof (step_ignored math_tanh services_async_call w i) as Hig.
      unfold takes_effect in Hig.
      rewrite Hev, Hoff in Hig. specialize (Hig eq_refl).
      exists []. rewrite app_nil_r. split; [|simpl; lia].
      destruct i; by rewrite Hig.
Qed.

(** X6.  A history makes at most one service call per input. *)
Theorem at_most_one_call_per_input entry states inputs :
  length (calls (trace (history_ entry states inputs))) <= length inputs.
Proof.
  unfold history.
  change (length inputs) with (length (calls (trace (setup entry states))) + length inputs).
  generalize (setup entry states) as w.
  induction inputs as [|i inputs IH]; intros w; simpl; [lia|].
  destruct (step_calls_length w i) as (es & Htr & Hes).
  specialize (IH (step_ w i)).
  rewrite Htr, calls_app, length_app in IH. lia.
Qed.

End Evaluations.

(** ** The state attributes *)

Section AttributesFacts.

Variable math_tanh : float -> float.
Variable services_async_call :
  World -> string -> string -> string -> float -> option Py.Exn.

Local Abbreviation attributes := (extra_state_attributes math_tanh).

Lemma attributes_heating_state w :
  attributes w !! ATTR_HEATING_STATE =
    Some (Attr.text (if _is_heating (thermostat w) then "heating" else "idle")).
Proof.
  unfold extra_state_attributes.
  destruct (Py.bool_dict _); [destruct (_ ≫= _)|]; by simplify_map_eq.
Qed.

Lemma attributes_current_shift w :
  attributes w !! ATTR_CURRENT_SHIFT =
    Some (Attr.number (_calculate_total_shift math_tanh w)).
Proof.
  unfold extra_state_attributes.
  destruct (Py.bool_dict _); [destruct (_ ≫= _)|]; by simplify_map_eq.
Qed.

Lemma attributes_price_diff_percent w :
  attributes w !! ATTR_PRICE_DIFF_PERCENT = Attr.number <$> price_reading w.
Proof.
  unfold extra_state_attributes, price_reading.
  destruct (data (coordinator w)) as [d|] eqn:Hd; [|by simplify_map_eq].
  change (Some d ≫= _) with (Py.dict_get d "price_diff_percent").
  destruct (Py.dict_get d "price_diff_percent") as [p|] eqn:Hp.
  - rewrite (dict_get_Some_nonempty d _ p Hp). by simplify_map_eq.
  - destruct (Py.bool_dict _); by simplify_map_eq.
Qed.

(** The actuator call fails or succeeds, and is never cancelled. *)
Hypothesis not_cancelled : forall w domain service entity_id t e,
  services_async_call w domain service entity_id t = Some e ->
  Py.isinstance_Exception e = true.

(** X9.  With an actuator call that is never cancelled, in every world of a
    history the attribute [heating_state] agrees with [hvac_action]: it is
    ["heating"] when the action is HEATING, and ["idle"] when the action is
    IDLE or OFF. *)
Theorem heating_state_attribute_is_the_action entry states inputs :
  let w := history math_tanh services_async_call entry states inputs in
  attributes w !! ATTR_HEATING_STATE =
    Some (Attr.text (match hvac_action w with
                     | HVACAction.HEATING => "heating"
                     | _ => "idle"
                     end)).
Proof.
  simpl. rewrite attributes_heating_state. unfold hvac_action.
  destruct (invariant_history math_tanh services_async_call not_cancelled
              entry states inputs) as [_ _ _ _ Hmode Hoff].
  destruct Hmode as [Hm|Hm].
  - destruct (Hoff Hm) as [-> _]. by rewrite Hm.
  - rewrite Hm; simpl. by destruct (_is_heating _).
Qed.

End AttributesFacts.

(** ** The fetch and the entity *)

Section FetchFacts.

Variable math_tanh : float -> float.
Variable builtin_float : string -> Py.Result float.

Hypothesis float_raises : forall s e,
  builtin_float s = Py.Raise e -> Py.isinstance_ValueError_TypeError e = true.

Lemma refreshed_unfold w :
  exists d : Data,
    refreshed builtin_float w =
      with_data (Some d) (run (_async_update_data builtin_float) w) /\
    thermostat (refreshed builtin_float w) = thermostat w /\
    temp_sensor_id (coordinator (refreshed builtin_float w)) = temp_sensor_id (coordinator w) /\
    price_sensor_id (coordinator (refreshed builtin_float w)) = price_sensor_id (coordinator w) /\
    hass_states (refreshed builtin_float w) = hass_states w /\
    data (coordinator (refreshed builtin_float w)) = Some d /\
    d !! "temperature" = Some (temperature_reading builtin_float w) /\
    d !! "price_diff_percent" = Some (price_diff_reading builtin_float w).
Proof.
  destruct (update_data_run builtin_float float_raises w)
    as (d & es & Hrun & Ht & Hp & _ & _).
  exists d. unfold refreshed, run. rewrite Hrun. simpl. by repeat split.
Qed.

(** X10.  The fetch and the entity agree on the dict.  Once the host has
    assigned the fetched dict to [coordinator.data], [current_temperature]
    is the temperature sensor's reading; the price the entity sees and the
    attribute [price_diff_percent] are the price sensor's reading; and for
    an entity and a coordinator of the same price sensor the total shift is
    the base shift plus the price shift of that reading, or the base shift
    alone when there is no reading. *)
Theorem fetch_feeds_entity w :
  let w' := refreshed builtin_float w in
  current_temperature w' = temperature_reading builtin_float w /\
  price_reading w' = price_diff_reading builtin_float w /\
  extra_state_attributes math_tanh w' !! ATTR_PRICE_DIFF_PERCENT =
    Attr.number <$> price_diff_reading builtin_float w /\
  (_price_sensor_id (thermostat w) = price_sensor_id (coordinator w) ->
   _calculate_total_shift math_tanh w' =
     match price_diff_reading builtin_float w with
     | Some p =>
         (_base_shift (thermostat w) +
          price_based_shift_percent math_tanh p
            (_max_price_shift (thermostat w)) (_price_steepness (thermostat w)))%float
     | None => _base_shift (thermostat w)
     end).
Proof.
  cbv zeta.
  destruct (refreshed_unfold w) as (d & _ & Hth & _ & _ & _ & Hd & Ht & Hp).
  assert (price_reading (refreshed builtin_float w) = price_diff_reading builtin_float w)
    as Hprice.
  { unfold price_reading. rewrite Hd; simpl. unfold Py.dict_get. by rewrite Hp. }
  split; [|split; [done|split]].
  - unfold current_temperature. rewrite Hd. unfold Py.dict_get. by rewrite Ht.
  - by rewrite attributes_price_diff_percent, Hprice.
  - intros Hids. unfold _calculate_total_shift. rewrite Hth.
    fold (price_reading (refreshed builtin_float w)). rewrite Hprice.
    destruct (price_diff_reading builtin_float w) as [p|] eqn:Hr.
    + assert (Py.bool_str (_price_sensor_id (thermostat w)) = true) as ->.
      { rewrite Hids. unfold price_diff_reading in Hr.
        by destruct (Py.bool_str _). }
      rewrite Hd.
      assert (Py.dict_get d "price_diff_percent" = Some p) as Hget
        by (unfold Py.dict_get; by rewrite Hp).
      by rewrite (dict_get_Some_nonempty d _ p Hget).
    + by destruct (_ && _).
Qed.

Variable services_async_call :
  World -> string -> string -> string -> float -> option Py.Exn.

(** X19.  A poll without a temperature reading holds the state: when the
    temperature sensor is missing or its state is not a number, the
    evaluation that follows the fetch calls no service and leaves the
    entity as it was before the fetch. *)
Theorem poll_without_reading_holds_state w :
  temperature_reading builtin_float w = None ->
  let w' := refreshed builtin_float w in
  let control := _async_control_heating math_tanh services_async_call in
  calls (effects control w') = [] /\
  thermostat (run control w') = thermostat w.
Proof.
  intros Hnone; cbv zeta.
  destruct (refreshed_unfold w) as (d & _ & Hth & _ & _ & _ & Hd & Ht & _).
  rewrite <- Hth. apply decided_no_call. unfold decision, current_temperature.
  rewrite Hd. unfold Py.dict_get. rewrite Ht, Hnone.
  by destruct (HVACMode.eqb _ _).
Qed.

End FetchFacts.

(** ** The config flow and the options flow *)

Section ConfigFlowFacts.

Lemma bool_dict_empty {V} (d : gmap string V) :
  Py.bool_dict (Some d) = false <-> d = ∅.
Proof.
  unfold Py.bool_dict. rewrite negb_false_iff, Nat.eqb_eq. apply map_size_empty_iff.
Qed.

(** The setpoint check of the validation, by its key. *)
Lemma validate_entities_high_setpoint states user_input :
  _validate_entities states user_input !! CONF_HIGH_SETPOINT =
    if (high_setpoint user_input <=? low_setpoint user_input)%float
    then Some "high_must_exceed_low" else None.
Proof.
  unfold _validate_entities.
  destruct (negb (bool_decide (is_Some (states !! real_thermostat user_input))));
    destruct (negb (bool_decide (is_Some (states !! temperature_sensor user_input))));
    destruct (Py.bool_str (price_sensor user_input));
    try destruct (negb (bool_decide (is_Some (price_sensor user_input ≫= _))));
    destruct (_ <=? _)%float.
  all: rewrite ?lookup_insert_ne by done; by rewrite ?lookup_insert_eq, ?lookup_empty.
Qed.

(** X11.  [_validate_entities] reports [entity_not_found] under the key of
    each entity that [hass.states] lacks (the price sensor only when one is
    given), and [high_must_exceed_low] under [high_setpoint] exactly when
    [high <= low] holds; it uses no other key, and it returns the empty dict
    exactly when the entities exist and [high <= low] is false. *)
Theorem validation_errors states user_input :
  let errors := _validate_entities states user_input in
  let found id := bool_decide (is_Some (states !! id)) in
  let price_found :=
    bool_decide (is_Some (price_sensor user_input ≫= (λ id, states !! id))) in
  errors !! CONF_REAL_THERMOSTAT =
    (if found (real_thermostat user_input) then None else Some "entity_not_found") /\
  errors !! CONF_TEMP_SENSOR =
    (if found (temperature_sensor user_input) then None else Some "entity_not_found") /\
  errors !! CONF_PRICE_SENSOR =
    (if Py.bool_str (price_sensor user_input) && negb price_found
     then Some "entity_not_found" else None) /\
  errors !! CONF_HIGH_SETPOINT =
    (if (high_setpoint user_input <=? low_setpoint user_input)%float
     then Some "high_must_exceed_low" else None) /\
  dom errors ⊆ {[CONF_REAL_THERMOSTAT; CONF_TEMP_SENSOR; CONF_PRICE_SENSOR;
                 CONF_HIGH_SETPOINT]} /\
  (errors = ∅ <->
   found (real_thermostat user_input) = true /\
   found (temperature_sensor user_input) = true /\
   (Py.bool_str (price_sensor user_input) = true -> price_found = true) /\
   (high_setpoint user_input <=? low_setpoint user_input)%float = false).
Proof.
  cbv zeta. unfold _validate_entities.
  destruct (bool_decide (is_Some (states !! real_thermostat user_input)));
    destruct (bool_decide (is_Some (states !! temperature_sensor user_input)));
    destruct (Py.bool_str (price_sensor user_input));
    destruct (bool_decide (is_Some (price_sensor user_input ≫= _)));
    destruct (_ <=? _)%float; simpl.
  all: repeat match goal with |- _ /\ _ => split end.
  all: try (rewrite ?lookup_insert_ne by done; by rewrite ?lookup_insert, ?lookup_empty).
  all: try match goal with
           | |- dom _ ⊆ _ =>
               rewrite ?dom_insert_L, dom_empty_L; intros x;
               rewrite ?elem_of_union, ?elem_of_singleton, elem_of_empty; tauto
           end.
  all: split; try done.
  all: try (intros H; exfalso; revert H; apply insert_non_empty).
  all: try (intros (? & ? & ? & ?); done).
  all: try (intros (? & ? & H & ?); by specialize (H eq_refl)).
Qed.

Lemma create_is_valid unique_id_aborts data :
  (exists states basic,
     _validate_entities states basic = ∅ /\
     (data = basic \/ exists user_input, data = merge_advanced basic user_input)) ->
  created_is_valid (create unique_id_aborts data).
Proof. intros H. unfold create. by destruct (unique_id_aborts _). Qed.

Lemma async_step_advanced_valid unique_id_aborts self user_input :
  stored_is_valid self ->
  created_is_valid (fst (async_step_advanced unique_id_aborts self user_input)) /\
  stored_is_valid (snd (async_step_advanced unique_id_aborts self user_input)).
Proof.
  intros Hself. unfold async_step_advanced.
  destruct user_input as [user_input|].
  - destruct (_basic_config self) as [basic|] eqn:Hb; simpl; [|done].
    split; [|done]. apply create_is_valid.
    destruct (Hself basic Hb) as [states Hv]. exists states, basic. eauto.
  - destruct (negb _); simpl; [|done].
    destruct (_basic_config self) as [basic|] eqn:Hb; simpl; [|done].
    split; [|done]. apply create_is_valid.
    destruct (Hself basic Hb) as [states Hv]. exists states, basic. eauto.
Qed.

Lemma async_step_user_valid states unique_id_aborts self user_input :
  stored_is_valid self ->
  created_is_valid (fst (async_step_user states unique_id_aborts self user_input)) /\
  stored_is_valid (snd (async_step_user states unique_id_aborts self user_input)).
Proof.
  intros Hself. unfold async_step_user.
  destruct user_input as [user_input|]; [|done].
  destruct (negb _) eqn:Herr; [|done].
  apply negb_true_iff, bool_dict_empty in Herr.
  assert (stored_is_valid {| _basic_config := Some user_input |}) as Hstored.
  { intros basic [= <-]. by exists states. }
  destruct (Py.bool_str _).
  - by apply async_step_advanced_valid.
  - simpl. split; [|done]. apply create_is_valid. exists states, user_input. eauto.
Qed.

Lemma flow_call_valid self c :
  stored_is_valid self ->
  created_is_valid (fst (flow_call self c)) /\ stored_is_valid (snd (flow_call self c)).
Proof.
  destruct c; simpl; [apply async_step_user_valid|apply async_step_advanced_valid].
Qed.

Lemma flow_results_valid self cs :
  stored_is_valid self -> Forall created_is_valid (flow_results self cs).
Proof.
  revert self. induction cs as [|c cs IH]; intros self Hself; simpl; [constructor|].
  destruct (flow_call_valid self c Hself) as [Hr Hs].
  destruct (flow_call self c) as [r self']. constructor; [done|by apply IH].
Qed.

(** X12.  Whatever calls the host makes on a fresh config flow, in whatever
    order, an entry the flow creates has passed [_validate_entities]: its
    data is an input of the user step that validated, or that input merged
    with the advanced step's.  So [high_setpoint <= low_setpoint] is false
    in it, and its title is made of the real thermostat's id. *)
Theorem created_entry_passed_validation cs title data :
  FlowResult.create_entry title data ∈ flow_results ConfigFlow__init__ cs ->
  (high_setpoint data <=? low_setpoint data)%float = false /\
  title = String.append "Adaptive " (split_dot_last (real_thermostat data)) /\
  exists states basic,
    _validate_entities states basic = ∅ /\
    (data = basic \/ exists user_input, data = merge_advanced basic user_input).
Proof.
  intros Hin.
  assert (stored_is_valid ConfigFlow__init__) as Hinit by (intros basic [=]).
  pose proof (flow_results_valid _ cs Hinit) as Hall.
  rewrite Forall_forall in Hall. specialize (Hall _ Hin). simpl in Hall.
  destruct Hall as (Htitle & states & basic & Hv & Hdata).
  split; [|split; [done|by exists states, basic]].
  pose proof (validate_entities_high_setpoint states basic) as Hle.
  rewrite Hv, lookup_empty in Hle.
  destruct Hdata as [->|[user_input ->]]; simpl.
  all: by destruct (_ <=? _)%float.
Qed.

(** X13.  The options flow does not validate: given a high setpoint that is
    not above the low one, [async_step_init] stores both as given and ends,
    leaving the entry with data that [_validate_entities] rejects with
    [high_must_exceed_low]. *)
Theorem options_skip_validation states config_entry user_input h l :
  opt_high_setpoint user_input = Some h ->
  opt_low_setpoint user_input = Some l ->
  (h <=? l)%float = true ->
  let (result, data) := async_step_init config_entry (Some user_input) in
  result = OptionsResult.create_entry /\
  high_setpoint data = h /\ low_setpoint data = l /\
  _validate_entities states data !! CONF_HIGH_SETPOINT = Some "high_must_exceed_low".
Proof.
  intros Hh Hl Hle. simpl.
  rewrite validate_entities_high_setpoint.
  simpl. rewrite Hh, Hl; simpl. by rewrite Hle.
Qed.

(** X14.  The options form submitted as shown changes nothing for the
    component: each default of the schema is the entry's value of its key,
    so the entity and the coordinator made of the new data are those made of
    the old. *)
Theorem options_unchanged_round_trip config_entry :
  match fst (async_step_init config_entry None) with
  | OptionsResult.show_form _ schema =>
      let data := snd (async_step_init config_entry (Some (unchanged schema))) in
      __init__ data = __init__ config_entry /\
      coordinator__init__ data = coordinator__init__ config_entry /\
      tolerance data = tolerance config_entry /\
      base_shift data = base_shift config_entry /\
      high_setpoint data = high_setpoint config_entry /\
      low_setpoint data = low_setpoint config_entry
  | OptionsResult.create_entry => False
  end.
Proof.
  destruct config_entry as [rt ts ps tol bs hi lo mx st]; simpl.
  destruct (Py.bool_str ps); cbn; [|done].
  by destruct mx, st.
Qed.

End ConfigFlowFacts.

(** ** The listener, the setup and the unload *)

Section EntryFacts.

Lemma fresh_listener hass : hass_listeners hass !! fresh (dom (hass_listeners hass)) = None.
Proof. apply not_elem_of_dom, is_fresh. Qed.

(** X15.  [async_start] then [async_stop] is a round trip.  On a coordinator
    without a listener, start tracks one new listener, on the price sensor
    alone, when a price sensor is configured, and none otherwise; stop then
    leaves the coordinator and the host as they were before the start; a
    second stop does nothing. *)
Theorem start_stop_round_trip self hass :
  _price_listener_unsubscribe self = None ->
  let '(started, hass1) := async_start self hass in
  let '(stopped, hass2) := async_stop started hass1 in
  stopped = self /\ hass2 = hass /\
  async_stop stopped hass2 = (stopped, hass2) /\
  match _price_listener_unsubscribe started with
  | Some handle =>
      Py.bool_str (price_sensor_id (fields self)) = true /\
      hass_listeners hass !! handle = None /\
      hass_listeners hass1 =
        <[handle := option_list (price_sensor_id (fields self))]> (hass_listeners hass)
  | None =>
      Py.bool_str (price_sensor_id (fields self)) = false /\
      hass_listeners hass1 = hass_listeners hass
  end.
Proof.
  intros Hnone. unfold async_start.
  destruct (Py.bool_str _) eqn:Hprice; simpl.
  - unfold unsubscribe; simpl.
    rewrite (delete_insert_id _ _ _ (fresh_listener hass)).
    destruct self as [f u], hass as [d l]; simpl in *. subst u.
    repeat split. apply not_elem_of_dom, is_fresh.
  - unfold async_stop. rewrite Hnone. by rewrite Hnone.
Qed.

Variable async_config_entry_first_refresh :
  AdaptiveThermostatCoordinator -> Py.Result Data.
Variable async_forward_entry_setups : Hass -> option Py.Exn.
Variable async_unload_platforms : Hass -> Py.Result bool.

Local Abbreviation setup_entry :=
  (async_setup_entry async_config_entry_first_refresh async_forward_entry_setups).
Local Abbreviation unload_entry := (async_unload_entry async_unload_platforms).

Lemma registered_store entry_id coordinator hass :
  registered entry_id (store entry_id coordinator hass) = Some coordinator.
Proof. unfold registered, store; simpl. by rewrite lookup_insert_eq. Qed.

Lemma registered_pop entry_id hass : registered entry_id (pop entry_id hass) = None.
Proof.
  unfold registered, pop; simpl.
  destruct (hass_data hass); simpl; [by rewrite lookup_delete_eq|done].
Qed.

(** X16.  [async_unload_entry] on a registered entry removes the
    coordinator's listener from the host whatever the platform unload
    answers; the registry forgets the entry only when the platforms
    unloaded, and otherwise keeps the coordinator, without its listener. *)
Theorem unload_stops_listener entry_id hass coordinator :
  registered entry_id hass = Some coordinator ->
  let '(result, hass') := unload_entry entry_id hass in
  hass_listeners hass' =
    match _price_listener_unsubscribe coordinator with
    | Some handle => delete handle (hass_listeners hass)
    | None => hass_listeners hass
    end /\
  match result with
  | Py.Return true => registered entry_id hass' = None
  | _ =>
      registered entry_id hass' =
        Some {| fields := fields coordinator; _price_listener_unsubscribe := None |}
  end.
Proof.
  intros Hreg. unfold async_unload_entry. rewrite Hreg.
  unfold async_stop.
  destruct coordinator as [f [handle|]]; simpl.
  all: destruct (async_unload_platforms _) as [[]|e]; simpl.
  all: split; [done|].
  all: unfold registered, pop, store; simpl.
  all: by rewrite ?lookup_delete_eq, ?lookup_insert_eq.
Qed.

(** X17.  [async_setup_entry]: when the first refresh raises, the exception
    goes through, no listener is tracked and the registry holds for the
    entry what it held before; when it returns, the coordinator is
    registered with the fetched data, and its listener is tracked when a
    price sensor is configured, before the platforms are set up: both stay
    when the forward raises. *)
Theorem setup_registers_before_forward entry_id entry hass :
  let '(result, hass') := setup_entry entry_id entry hass in
  match async_config_entry_first_refresh (coordinator__init__ entry) with
  | Py.Raise e =>
      result = Py.Raise e /\
      hass_listeners hass' = hass_listeners hass /\
      registered entry_id hass' = registered entry_id hass
  | Py.Return d =>
      (result = Py.Return true \/
       exists e, result = Py.Raise e /\ async_forward_entry_setups hass' = Some e) /\
      exists coordinator,
        registered entry_id hass' = Some coordinator /\
        temp_sensor_id (fields coordinator) = temperature_sensor entry /\
        price_sensor_id (fields coordinator) = price_sensor entry /\
        data (fields coordinator) = Some d /\
        match _price_listener_unsubscribe coordinator with
        | Some handle =>
            Py.bool_str (price_sensor entry) = true /\
            hass_listeners hass !! handle = None /\
            hass_listeners hass' =
              <[handle := option_list (price_sensor entry)]> (hass_listeners hass)
        | None =>
            Py.bool_str (price_sensor entry) = false /\
            hass_listeners hass' = hass_listeners hass
        end
  end.
Proof.
  unfold async_setup_entry; simpl.
  destruct (async_config_entry_first_refresh _) as [d|e]; simpl.
  - unfold async_start; simpl.
    destruct (Py.bool_str (price_sensor entry)) eqn:Hprice; simpl.
    all: destruct (async_forward_entry_setups _) as [e|] eqn:Hfwd; simpl.
    all: (split; [first [by left | right; by exists e]|]).
    all: eexists; split; [apply registered_store|]; simpl.
    all: repeat split; try done.
    all: apply fresh_listener.
  - repeat split. unfold registered; simpl. by destruct (hass_data hass).
Qed.

(** X18.  Setup then unload is a round trip when the host's calls succeed:
    both return [True], the host tracks the listeners it tracked before, the
    entry is no longer registered, and the coordinators of the other
    entries are untouched. *)
Theorem setup_then_unload entry_id entry hass d :
  async_config_entry_first_refresh (coordinator__init__ entry) = Py.Return d ->
  (forall hass, async_forward_entry_setups hass = None) ->
  (forall hass, async_unload_platforms hass = Py.Return true) ->
  let '(result1, hass1) := setup_entry entry_id entry hass in
  let '(result2, hass2) := unload_entry entry_id hass1 in
  result1 = Py.Return true /\ result2 = Py.Return true /\
  hass_listeners hass2 = hass_listeners hass /\
  registered entry_id hass2 = None /\
  (forall other, other <> entry_id -> registered other hass2 = registered other hass).
Proof.
  intros Hrefresh Hfwd Hunload.
  unfold async_setup_entry; simpl. rewrite Hrefresh; simpl.
  unfold async_start; simpl.
  destruct (Py.bool_str (price_sensor entry)) eqn:Hprice; simpl.
  all: rewrite Hfwd.
  all: unfold async_unload_entry, registered; simpl; rewrite lookup_insert_eq; simpl.
  all: rewrite Hunload; simpl.
  all: split; [done|]; split; [done|].
  all: split; [by rewrite ?(delete_insert_id _ _ _ (fresh_listener hass))|].
  all: split; [unfold registered; simpl; by rewrite lookup_delete_eq|].
  all: intros other Hother; unfold registered; simpl.
  all: rewrite lookup_delete_ne by done; rewrite insert_insert_eq, lookup_insert_ne by done.
  all: by destruct (hass_data hass).
Qed.

End EntryFacts.

(** ** More theorems at work *)

Lemma command_leaves_entity_settled_scenario_A :
  calls (effects (_async_control_heating linear_tanh reliable)
           (step linear_tanh reliable scenario_A Evaluate)) = [].
Proof.
  exact (proj1 (command_leaves_entity_settled linear_tanh reliable scenario_A Evaluate
                  eq_refl)).
Defined.

Lemma heating_bit_is_last_command_living_room :
  last (commanded (trace (history linear_tanh reliable living_room ∅
                            [Publish (Some (published (Some 19.3%float) None)); Evaluate]))) =
    Some 35.0%float.
Proof.
  exact (proj1 (heating_bit_is_last_command linear_tanh reliable reliable_not_cancelled
                  living_room ∅
                  [Publish (Some (published (Some 19.3%float) None)); Evaluate]) eq_refl).
Defined.

Lemma commands_alternate_living_room :
  exists n,
    commanded (trace (history linear_tanh reliable living_room ∅
                        [Publish (Some (published (Some 19.3%float) None)); Evaluate;
                         Publish (Some (published (Some 21%float) None)); Evaluate])) =
      alternating 35.0%float 5.0%float n /\
    _is_heating (thermostat (history linear_tanh reliable living_room ∅
                        [Publish (Some (published (Some 19.3%float) None)); Evaluate;
                         Publish (Some (published (Some 21%float) None)); Evaluate])) =
      Nat.odd n.
Proof.
  exact (commands_alternate linear_tanh reliable living_room ∅
           [Publish (Some (published (Some 19.3%float) None)); Evaluate;
            Publish (Some (published (Some 21%float) None)); Evaluate] eq_refl).
Defined.

Lemma colder_reading_keeps_heating_living_room :
  should_heat 19.0 20.0 0.5 0.0 false = true.
Proof.
  exact (colder_reading_keeps_heating 19.0 19.3 20.0 0.5 0.0 false eq_refl eq_refl).
Defined.

Lemma nan_keeps_state_living_room :
  thermostat (run (_async_control_heating linear_tanh reliable)
                (with_data (Some (published (Some nan) None)) (setup living_room ∅))) =
    __init__ living_room.
Proof.
  exact (proj2 (nan_keeps_state linear_tanh reliable
                  (with_data (Some (published (Some nan) None)) (setup living_room ∅))
                  nan eq_refl (or_introl eq_refl))).
Defined.

Lemma heating_state_attribute_living_room :
  extra_state_attributes linear_tanh
    (history linear_tanh reliable living_room ∅
       [Publish (Some (published (Some 19.3%float) None)); Evaluate])
    !! ATTR_HEATING_STATE = Some (Attr.text "heating").
Proof.
  exact (heating_state_attribute_is_the_action linear_tanh reliable reliable_not_cancelled
           living_room ∅
           [Publish (Some (published (Some 19.3%float) None)); Evaluate]).
Defined.

Lemma fetch_feeds_entity_living_room :
  current_temperature
    (refreshed float_of_known (setup living_room living_room_states)) = Some 19.3%float.
Proof.
  exact (proj1 (fetch_feeds_entity linear_tanh float_of_known float_of_known_raises
                  (setup living_room living_room_states))).
Defined.

Lemma created_entry_living_room :
  (high_setpoint living_room <=? low_setpoint living_room)%float = false.
Proof.
  refine (proj1 (created_entry_passed_validation
                   [Call_user living_room_states (λ _, None) None;
                    Call_user living_room_states (λ _, None) (Some living_room)]
                   "Adaptive living_room" living_room _)).
  vm_compute. do 2 constructor.
Defined.

Lemma options_skip_validation_living_room :
  _validate_entities living_room_states
    (snd (async_step_init living_room (Some inverted_options)))
    !! CONF_HIGH_SETPOINT = Some "high_must_exceed_low".
Proof.
  exact (proj2 (proj2 (proj2
    (options_skip_validation living_room_states living_room inverted_options
       5.0 35.0 eq_refl eq_refl eq_refl)))).
Defined.

Lemma start_stop_round_trip_priced :
  snd (async_stop
         (fst (async_start (Coordinator__init__ living_room_priced) fresh_hass))
         (snd (async_start (Coordinator__init__ living_room_priced) fresh_hass))) =
    fresh_hass.
Proof.
  pose proof (start_stop_round_trip (Coordinator__init__ living_room_priced) fresh_hass
                eq_refl) as H.
  destruct (async_start _ _) as [started hass1]. simpl.
  destruct (async_stop _ _) as [stopped hass2]. simpl.
  exact (proj1 (proj2 H)).
Defined.

Lemma unload_stops_listener_priced :
  registered "entry_1" (snd (async_unload_entry unload_returns_true "entry_1" priced_hass)) =
    None.
Proof.
  pose proof (unload_stops_listener unload_returns_true "entry_1" priced_hass
                {| fields := {| temp_sensor_id := "sensor.living_room_temperature";
                                price_sensor_id := Some "sensor.price_diff";
                                data := Some (published (Some 19.3%float) None) |};
                   _price_listener_unsubscribe := Some (fresh (∅ : gset nat)) |}
                eq_refl) as H.
  vm_compute in H. vm_compute. exact (proj2 H).
Defined.

Lemma setup_then_unload_priced :
  hass_listeners
    (snd (async_unload_entry unload_returns_true "entry_1" priced_hass)) = ∅.
Proof.
  pose proof (setup_then_unload first_refresh_19_3 forward_returns unload_returns_true
                "entry_1" living_room_priced fresh_hass
                (published (Some 19.3%float) None) eq_refl
                (λ _, eq_refl) (λ _, eq_refl)) as H.
  unfold priced_hass.
  destruct (async_setup_entry _ _ _ _ _) as [result1 hass1]. simpl.
  destruct (async_unload_entry _ _ _) as [result2 hass2]. simpl.
  exact (proj1 (proj2 (proj2 H))).
Defined.

Lemma poll_without_reading_living_room :
  thermostat (run (_async_control_heating linear_tanh reliable)
                (refreshed float_of_known (setup living_room ∅))) =
    __init__ living_room.
Proof.
  exact (proj2 (poll_without_reading_holds_state linear_tanh float_of_known
                  float_of_known_raises reliable (setup living_room ∅) eq_refl)).
Defined.
